(** * Airflow DAG definitions of [afriths/airflow_docker]

    The repository holds three DAG files under [dags/].  Each file is a
    Python module that builds one [DAG] object inside a [with DAG(...) as dag:]
    block, creates operators in it and (in the third file) chains them
    with [>>].  The files are embedded here as the values those modules
    build: Python dictionaries as finite maps, keyword arguments as record
    fields, the [with] block as a small state-and-error monad over the DAG
    under construction. *)

From Stdlib Require Import ZArith List String Ascii Bool Lia.
From stdpp Require Import base option list strings gmap.
Import ListNotations.

Local Open Scope string_scope.
Local Open Scope Z_scope.
Local Open Scope list_scope.

(** ** Characters and text

    The engine-side readers below (identifiers, schedule expressions,
    templates, SQL) work on the characters of a Python [str], taken as a
    list. *)

Module Text.

Definition chars (s : string) : list ascii := list_ascii_of_string s.
Definition text (l : list ascii) : string := string_of_list_ascii l.

Definition code (c : ascii) : N := N_of_ascii c.

Definition is_digit (c : ascii) : bool :=
  ((48 <=? code c) && (code c <=? 57))%N.

Definition is_upper (c : ascii) : bool :=
  ((65 <=? code c) && (code c <=? 90))%N.

Definition is_lower (c : ascii) : bool :=
  ((97 <=? code c) && (code c <=? 122))%N.

(** [str.isspace] on ASCII: space, tab, line feed, vertical tab, form feed,
    carriage return. *)
Definition is_space (c : ascii) : bool :=
  ((code c =? 32) || ((9 <=? code c) && (code c <=? 13)))%N.

Definition lower (c : ascii) : ascii :=
  if is_upper c then ascii_of_N (code c + 32) else c.

Definition digit_value (c : ascii) : Z := Z.of_N (code c) - 48.

Definition digit_char (n : Z) : ascii := ascii_of_N (Z.to_N (48 + n)).

(** A non-empty run of decimal digits read as a number. *)
Fixpoint number_from (acc : Z) (l : list ascii) : option Z :=
  match l with
  | [] => Some acc
  | c :: r => if is_digit c then number_from (acc * 10 + digit_value c) r
              else None
  end.

Definition number (l : list ascii) : option Z :=
  match l with
  | [] => None
  | _ => number_from 0 l
  end.

(** [s.split(c)]: the pieces between occurrences of [c], empty ones kept. *)
Fixpoint split_on (c : ascii) (cur : list ascii) (l : list ascii)
  : list (list ascii) :=
  match l with
  | [] => [cur]
  | x :: r => if Ascii.eqb x c then cur :: split_on c [] r
              else split_on c (cur ++ [x]) r
  end.

(** [s.split()]: the maximal runs of non-blank characters. *)
Fixpoint words_from (cur : list ascii) (l : list ascii) : list (list ascii) :=
  match l with
  | [] => match cur with [] => [] | _ => [cur] end
  | x :: r =>
      if is_space x
      then match cur with [] => words_from [] r | _ => cur :: words_from [] r end
      else words_from (cur ++ [x]) r
  end.

Definition words (l : list ascii) : list (list ascii) := words_from [] l.

Fixpoint starts_with (p l : list ascii) : bool :=
  match p, l with
  | [], _ => true
  | _ :: _, [] => false
  | a :: p', b :: l' => Ascii.eqb a b && starts_with p' l'
  end.

(** [p in s] on Python strings. *)
Fixpoint occurs_in (p l : list ascii) : bool :=
  starts_with p l ||
  match l with
  | [] => false
  | _ :: r => occurs_in p r
  end.

Definition contains (s p : string) : bool := occurs_in (chars p) (chars s).

Definition eq_chars (a b : list ascii) : bool :=
  String.eqb (text a) (text b).

End Text.

(** ** The part of the Airflow interface the DAG files use *)

Module Airflow.
Import Text.

(** *** Python values used by the DAG files *)

(** [datetime.timedelta] keeps a normalised triple. *)
Record timedelta_t := mk_timedelta {
  td_days : Z;
  td_seconds : Z;
  td_microseconds : Z
}.

(** [timedelta(minutes=m)] *)
Definition timedelta (minutes : Z) : timedelta_t :=
  let s := minutes * 60 in
  {| td_days := s / 86400; td_seconds := s mod 86400; td_microseconds := 0 |}.

(** [datetime.datetime]; the files only pass year, month and day, the other
    fields take their default 0. *)
Record datetime_t := mk_datetime {
  year : Z;
  month : Z;
  day : Z;
  hour : Z;
  minute : Z;
  second : Z
}.

Definition datetime (y m d : Z) : datetime_t :=
  {| year := y; month := m; day := d; hour := 0; minute := 0; second := 0 |}.

(** The values stored in a [default_args] dictionary. *)
Inductive pyval :=
| PyStr (s : string)
| PyInt (n : Z)
| PyTimedelta (td : timedelta_t).

(** ** Operators and DAGs *)

Inductive operator :=
| BashOperator (task_id : string) (bash_command : string)
| SQLExecuteQueryOperator (task_id : string) (conn_id : string) (sql : string).

Definition task_id (op : operator) : string :=
  match op with
  | BashOperator t _ => t
  | SQLExecuteQueryOperator t _ _ => t
  end.

(** The SQL text of an SQL step, the shell command of a bash step. *)
Definition sql (op : operator) : option string :=
  match op with
  | BashOperator _ _ => None
  | SQLExecuteQueryOperator _ _ q => Some q
  end.

Definition bash_command (op : operator) : option string :=
  match op with
  | BashOperator _ c => Some c
  | SQLExecuteQueryOperator _ _ _ => None
  end.

(** A DAG: the keyword arguments of [DAG(...)], the tasks created inside
    the [with] block in creation order, and the dependency edges declared
    with [>>], as pairs (upstream task id, downstream task id). *)
Record DAG := mk_DAG {
  dag_id : string;
  default_args : gmap string pyval;
  description : option string;
  start_date : option datetime_t;
  schedule : option string;
  catchup : bool;
  tasks : list operator;
  edges : list (string * string)
}.

(** ** The [with DAG(...) as dag:] block

    Inside the block every operator that is constructed joins the DAG and
    [a >> b] records the edge from [a] to [b] and evaluates to [b]. *)

(** Identifiers of DAGs and tasks are checked by the engine's
    [validate_key]: at most 250 characters that match [^[\w.-]+$], that
    is, letters, digits, underscores, dots and dashes (the bytes of
    non-ASCII letters included), at least one of them, with a line feed
    allowed after the last. *)
Definition key_char (c : ascii) : bool :=
  is_digit c || is_upper c || is_lower c || Ascii.eqb c "_"
  || Ascii.eqb c "." || Ascii.eqb c "-" || (128 <=? code c)%N.

Definition key_body (l : list ascii) : list ascii :=
  match rev l with
  | c :: r => if (code c =? 10)%N then rev r else l
  | [] => []
  end.

Definition valid_key (k : string) : bool :=
  match key_body (chars k) with
  | [] => false
  | b => forallb key_char b && Nat.leb (length (chars k)) 250
  end.

Inductive dag_error :=
| InvalidKey (k : string)
| DuplicateTaskIdFound (t : string)
| TaskNotInDag (t : string).

Definition Build (A : Type) : Type := DAG -> dag_error + (A * DAG).

Definition ret {A} (a : A) : Build A := fun d => inr (a, d).

Definition bind {A B} (m : Build A) (k : A -> Build B) : Build B :=
  fun d => match m d with
           | inl e => inl e
           | inr (a, d') => k a d'
           end.

#[global] Instance Build_ret : MRet Build := @ret.
#[global] Instance Build_bind : MBind Build := fun A B k m => bind m k.

Definition has_task (t : string) (d : DAG) : bool :=
  existsb (fun op => String.eqb (task_id op) t) (tasks d).

(** Constructing an operator inside the block: [dag.add_task]. *)
Definition add_task (op : operator) : Build operator :=
  fun d =>
    if negb (valid_key (task_id op)) then inl (InvalidKey (task_id op))
    else if has_task (task_id op) d then inl (DuplicateTaskIdFound (task_id op))
    else inr (op, {| dag_id := dag_id d; default_args := default_args d;
                     description := description d; start_date := start_date d;
                     schedule := schedule d; catchup := catchup d;
                     tasks := tasks d ++ [op]; edges := edges d |}).

Definition has_edge (e : string * string) (d : DAG) : bool :=
  existsb (fun e' => String.eqb (fst e') (fst e) && String.eqb (snd e') (snd e))
          (edges d).

(** [a >> b]: [a.set_downstream(b)], value [b].  A dependency that is
    already registered is not added a second time. *)
Definition rshift (a b : operator) : Build operator :=
  fun d =>
    if negb (has_task (task_id a) d) then inl (TaskNotInDag (task_id a))
    else if negb (has_task (task_id b) d) then inl (TaskNotInDag (task_id b))
    else
      let e := (task_id a, task_id b) in
      if has_edge e d then inr (b, d)
      else inr (b, {| dag_id := dag_id d; default_args := default_args d;
                      description := description d; start_date := start_date d;
                      schedule := schedule d; catchup := catchup d;
                      tasks := tasks d; edges := edges d ++ [e] |}).

(** [with DAG(...) as dag: body]: the constructor checks the identifier,
    the body runs on the new DAG, and the result is the DAG that was built,
    when no call raised. *)
Definition with_DAG {A} (d : DAG) (body : Build A) : option DAG :=
  if negb (valid_key (dag_id d)) then None
  else match body d with
       | inl _ => None
       | inr (_, d') => Some d'
       end.

End Airflow.
Import Airflow.

(** ** dags/dag_with_catchup_and_backfill.py *)

Module dag_with_catchup_and_backfill.

Definition default_args : gmap string pyval :=
  <["owner" := PyStr "afrith"]>
  (<["retries" := PyInt 5]>
  (<["retry_delay" := PyTimedelta (timedelta 2)]> ∅)).

Definition task1 : operator :=
  BashOperator "task1" "echo This is a simple bash command!".

Definition body : Build operator :=
  add_task task1.

Definition dag : option DAG :=
  with_DAG
    {| dag_id := "dag_with_catchup_and_backfill_v02";
       Airflow.default_args := default_args;
       description := Some "DAG with catchup and backfill example";
       start_date := Some (datetime 2025 12 21);
       schedule := Some "@daily";
       catchup := true;
       tasks := []; edges := [] |}
    body.

End dag_with_catchup_and_backfill.

(** ** dags/dag_with_cron_expression.py *)

Module dag_with_cron_expression.

Definition default_args : gmap string pyval :=
  <["owner" := PyStr "afrith"]>
  (<["retries" := PyInt 5]>
  (<["retry_delay" := PyTimedelta (timedelta 5)]> ∅)).

Definition task1 : operator :=
  BashOperator "task1" "echo dag with cron expression!".

(** The last line of the block is the bare expression [task1]. *)
Definition body : Build operator :=
  t1 ← add_task task1;
  mret t1.

Definition dag : option DAG :=
  with_DAG
    {| dag_id := "dag_with_cron_expression_v04";
       Airflow.default_args := default_args;
       description := None;
       start_date := Some (datetime 2025 12 16);
       schedule := Some "0 3 * * Tue";
       catchup := true;
       tasks := []; edges := [] |}
    body.

End dag_with_cron_expression.

(** ** dags/dag_with_postgres_operator.py *)

Module dag_with_postgres_operator.

Definition default_args : gmap string pyval :=
  <["owner" := PyStr "afrith"]>
  (<["retries" := PyInt 5]>
  (<["retry_delay" := PyTimedelta (timedelta 5)]> ∅)).

Definition task1 : operator :=
  SQLExecuteQueryOperator "create_postgres_table" "postgres_localhost"
"
        CREATE TABLE IF NOT EXISTS dag_runs (
            dt DATE,
            dag_id VARCHAR,
            PRIMARY KEY (dt, dag_id)
        );
        ".

Definition task2 : operator :=
  SQLExecuteQueryOperator "insert_into_table" "postgres_localhost"
"
            INSERT INTO dag_runs (dt, dag_id) VALUES ('{{ ds }}', '{{ dag.dag_id }}')
        ".

Definition task3 : operator :=
  SQLExecuteQueryOperator "delete_data_from_table" "postgres_localhost"
"
            DELETE FROM dag_runs WHERE dt = '{{ ds }}' and dag_id = '{{ dag.dag_id }}';
        ".

(** The three operators are created in the order task1, task2, task3; the
    last line [task1 >> task3 >> task2] is evaluated left to right. *)
Definition body : Build operator :=
  t1 ← add_task task1;
  t2 ← add_task task2;
  t3 ← add_task task3;
  r ← rshift t1 t3;
  rshift r t2.

Definition dag : option DAG :=
  with_DAG
    {| dag_id := "dag_with_postgres_operator_v03";
       Airflow.default_args := default_args;
       description := None;
       start_date := Some (datetime 2025 12 16);
       schedule := Some "0 0 * * *";
       catchup := false;
       tasks := []; edges := [] |}
    body.

End dag_with_postgres_operator.

(** The DAGs of the repository, in the order of the specification:
    catchup/backfill, cron expression, postgres operator. *)
Definition all_dags : list (option DAG) :=
  [ dag_with_catchup_and_backfill.dag;
    dag_with_cron_expression.dag;
    dag_with_postgres_operator.dag ].

Definition retries (d : DAG) : option pyval := default_args d !! "retries".


(** ** Schedule expressions

    The [schedule] argument is a preset name or a five-field cron
    expression.  The grammar is the one of crontab(5) that the engine's
    cron reader accepts: minute, hour, day of month, month, day of week;
    a field is a comma-separated list of [*], a value or a range
    [a-b], each optionally followed by [/step]; months and week days may
    be written by their three-letter English names in any case. *)

Module Cron.
Import Text.

(** The engine's [cron_presets] and the two special schedules. *)
Definition presets : list string :=
  ["@once"; "@continuous"; "@hourly"; "@daily"; "@weekly"; "@monthly";
   "@quarterly"; "@yearly"].

Definition is_preset (s : string) : bool := existsb (String.eqb s) presets.

Definition month_names : list string :=
  ["jan"; "feb"; "mar"; "apr"; "may"; "jun"; "jul"; "aug"; "sep"; "oct";
   "nov"; "dec"].

Definition day_names : list string :=
  ["sun"; "mon"; "tue"; "wed"; "thu"; "fri"; "sat"].

Definition value_ok (lo hi : Z) (names : list string) (v : list ascii) : bool :=
  match number v with
  | Some n => (lo <=? n) && (n <=? hi)
  | None => existsb (String.eqb (text (map lower v))) names
  end.

Definition range_ok (lo hi : Z) (names : list string) (r : list ascii) : bool :=
  match split_on "-" [] r with
  | [a] => eq_chars a (chars "*") || value_ok lo hi names a
  | [a; b] => value_ok lo hi names a && value_ok lo hi names b
  | _ => false
  end.

Definition step_ok (s : list ascii) : bool :=
  match number s with
  | Some n => 1 <=? n
  | None => false
  end.

Definition element_ok (lo hi : Z) (names : list string) (e : list ascii) : bool :=
  match split_on "/" [] e with
  | [r] => range_ok lo hi names r
  | [r; s] => range_ok lo hi names r && step_ok s
  | _ => false
  end.

Definition field_ok (lo hi : Z) (names : list string) (f : list ascii) : bool :=
  forallb (element_ok lo hi names) (split_on "," [] f).

Definition cron_ok (s : string) : bool :=
  match words (chars s) with
  | [mi; h; dom; mon; dow] =>
      field_ok 0 59 [] mi && field_ok 0 23 [] h && field_ok 1 31 [] dom
      && field_ok 1 12 month_names mon && field_ok 0 7 day_names dow
  | _ => false
  end.

Definition schedule_ok (s : string) : bool := is_preset s || cron_ok s.

End Cron.

(** ** Calendar dates

    The proleptic Gregorian ordinal of Python's [datetime] module
    ([_is_leap], [_days_before_year], [_days_in_month],
    [_days_before_month], [_ymd2ord]) and the [%Y-%m-%d] rendering of a
    date. *)

Module Calendar.
Import Text.

Definition is_leap (y : Z) : bool :=
  (y mod 4 =? 0) && (negb (y mod 100 =? 0) || (y mod 400 =? 0)).

Definition days_before_year (y : Z) : Z :=
  let y' := y - 1 in y' * 365 + y' / 4 - y' / 100 + y' / 400.

Definition DAYS_IN_MONTH : list Z :=
  [-1; 31; 28; 31; 30; 31; 30; 31; 31; 30; 31; 30; 31].

Definition DAYS_BEFORE_MONTH : list Z :=
  [-1; 0; 31; 59; 90; 120; 151; 181; 212; 243; 273; 304; 334].

Definition days_in_month (y m : Z) : Z :=
  if (m =? 2) && is_leap y then 29
  else nth (Z.to_nat m) DAYS_IN_MONTH 0.

Definition days_before_month (y m : Z) : Z :=
  nth (Z.to_nat m) DAYS_BEFORE_MONTH 0
  + (if (2 <? m) && is_leap y then 1 else 0).

Definition ymd2ord (y m d : Z) : Z :=
  days_before_year y + days_before_month y m + d.

Definition toordinal (dt : datetime_t) : Z :=
  ymd2ord (year dt) (month dt) (day dt).

(** The dates [datetime] accepts, with a four-digit year. *)
Definition valid_ymd (y m d : Z) : bool :=
  (1000 <=? y) && (y <=? 9999) && (1 <=? m) && (m <=? 12)
  && (1 <=? d) && (d <=? days_in_month y m).

Definition valid_date (dt : datetime_t) : bool :=
  valid_ymd (year dt) (month dt) (day dt).

Definition two_digits (n : Z) : list ascii :=
  [digit_char (n / 10); digit_char (n mod 10)].

Definition four_digits (n : Z) : list ascii :=
  [digit_char (n / 1000); digit_char (n / 100 mod 10);
   digit_char (n / 10 mod 10); digit_char (n mod 10)].

(** [dt.strftime('%Y-%m-%d')] *)
Definition isoformat (dt : datetime_t) : list ascii :=
  four_digits (year dt) ++ "-"%char :: two_digits (month dt)
  ++ "-"%char :: two_digits (day dt).

(** Reading [YYYY-MM-DD] back: ten characters, digits and two dashes, that
    name a date of the calendar. *)
Definition parse_iso (l : list ascii) : option (Z * Z * Z) :=
  match l with
  | [y1; y2; y3; y4; s1; m1; m2; s2; d1; d2] =>
      if Ascii.eqb s1 "-" && Ascii.eqb s2 "-" then
        match number [y1; y2; y3; y4], number [m1; m2], number [d1; d2] with
        | Some y, Some m, Some d =>
            if valid_ymd y m d then Some (y, m, d) else None
        | _, _, _ => None
        end
      else None
  | _ => None
  end.

End Calendar.

(** ** Scheduling of runs *)

Module Scheduler.
Import Calendar.

Definition is_daily (s : string) : bool :=
  String.eqb s "@daily" || String.eqb s "0 0 * * *".

Definition days_from (first : Z) (n : nat) : list Z :=
  map (fun k => first + Z.of_nat k) (seq 0 n).

(** The two ways in which the engine can be set to schedule a cron
    expression: a run is due at its scheduled time (the engine's default),
    or it stands for the interval that starts at its scheduled time and is
    due when that interval is over. *)
Inductive timetable :=
| Trigger
| DataInterval.

(** The last scheduled day whose run is due on day [today]. *)
Definition last_due (t : timetable) (today : Z) : Z :=
  match t with
  | Trigger => today
  | DataInterval => today - 1
  end.

(** Modelled from the spec: the scheduler of the external engine, which
    is not part of the repository.  The glossary has "Catchup: execution
    of all historically missed scheduled runs between start date and now",
    and the interface section names the start date, the schedule and the
    catchup flag as what a workflow hands to the engine.  The model covers
    the schedules with one scheduled run per calendar day at midnight
    ([@daily], which the engine expands to [0 0 * * *]); days are
    ordinals, a run is named by its scheduled day, and [today] is the
    current day, its midnight past.  With [catchup] the runs of all
    scheduled days from the start date on that are due are executed;
    without it only the latest of them is. *)
Definition runs_due (t : timetable) (d : DAG) (today : Z) : option (list Z) :=
  match start_date d, schedule d with
  | Some sd, Some s =>
      if is_daily s then
        let first := toordinal sd in
        let last := last_due t today in
        if catchup d then Some (days_from first (Z.to_nat (last + 1 - first)))
        else Some (if first <=? last then [last] else [])
      else None
  | _, _ => None
  end.

End Scheduler.

(** ** The dependency graph of a DAG *)

Module Graph.

Definition task_ids (d : DAG) : list string := map task_id (tasks d).

Definition downstream (d : DAG) (t : string) : list string :=
  map snd (List.filter (fun e => String.eqb (fst e) t) (edges d)).

(** [b] is reached from [a] along at most [fuel] declared edges. *)
Fixpoint reaches (fuel : nat) (d : DAG) (a b : string) : bool :=
  match fuel with
  | O => false
  | S f => existsb (fun s => String.eqb s b || reaches f d s b) (downstream d a)
  end.

(** [a] runs before [b]: a path of declared edges leads from [a] to [b];
    a simple path never has more edges than the DAG has tasks. *)
Definition precedes (d : DAG) (a b : string) : bool :=
  reaches (length (tasks d)) d a b.

(** Any two different steps are ordered by the declared edges. *)
Definition ordered (d : DAG) : bool :=
  forallb (fun a =>
    forallb (fun b => String.eqb a b || precedes d a b || precedes d b a)
            (task_ids d))
    (task_ids d).

End Graph.

(** ** Templates

    The [sql] argument of an SQL step is a template: before the step runs
    the engine replaces every [{{ expr }}] by the value of [expr] in the
    run's context.  An expression the context does not define is an error
    (the engine renders with strict undefined values); statement and
    comment tags do not occur in the repository and are not read. *)

Module Template.
Import Text Calendar.

(** The run's context, as far as the repository's templates use it: the
    run's logical date and the DAG itself. *)
Record context := mk_context {
  logical_date : datetime_t;
  dag : DAG
}.

Fixpoint lstrip (l : list ascii) : list ascii :=
  match l with
  | c :: r => if is_space c then lstrip r else l
  | [] => []
  end.

Definition strip (l : list ascii) : list ascii :=
  rev (lstrip (rev (lstrip l))).

(** [ds] is the logical date as [YYYY-MM-DD]; [dag.dag_id] the
    identifier of the DAG. *)
Definition eval (ctx : context) (expr : list ascii) : option (list ascii) :=
  let e := text (strip expr) in
  if String.eqb e "ds" then Some (isoformat (logical_date ctx))
  else if String.eqb e "dag.dag_id" then Some (chars (dag_id (dag ctx)))
  else None.

Inductive mode :=
| Plain
| Brace
| Expr (buf : list ascii)
| ExprBrace (buf : list ascii).

Fixpoint render_from (ctx : context) (m : mode) (l : list ascii)
  : option (list ascii) :=
  match l with
  | [] =>
      match m with
      | Plain => Some []
      | Brace => Some ["{"%char]
      | Expr _ | ExprBrace _ => None
      end
  | c :: r =>
      match m with
      | Plain =>
          if Ascii.eqb c "{" then render_from ctx Brace r
          else cons c <$> render_from ctx Plain r
      | Brace =>
          if Ascii.eqb c "{" then render_from ctx (Expr []) r
          else if Ascii.eqb c "%" || Ascii.eqb c "#" then None
          else (fun o => "{"%char :: c :: o) <$> render_from ctx Plain r
      | Expr b =>
          if Ascii.eqb c "}" then render_from ctx (ExprBrace b) r
          else render_from ctx (Expr (b ++ [c])) r
      | ExprBrace b =>
          if Ascii.eqb c "}" then
            match eval ctx b, render_from ctx Plain r with
            | Some v, Some o => Some (v ++ o)
            | _, _ => None
            end
          else render_from ctx (Expr (b ++ ["}"%char; c])) r
      end
  end.

Definition render (ctx : context) (template : string) : option (list ascii) :=
  render_from ctx Plain (chars template).

End Template.

(** ** The SQL statements of the third DAG

    What the database does with the three statements: a reader for the
    statement forms that occur ([CREATE TABLE [IF NOT EXISTS]] with typed
    columns and a primary key, [INSERT INTO ... VALUES] of string
    literals, [DELETE FROM ... WHERE] a conjunction of equalities with
    string literals) and their effect on a database of named tables. *)

Module Sql.
Import Text Calendar.

(** *** Lexical structure *)

Inductive token :=
| TWord (w : string)
| TString (s : list ascii)
| TLParen
| TRParen
| TComma
| TSemi
| TEq.

Inductive lex_mode :=
| Idle
| InWord (buf : list ascii)
| InString (buf : list ascii)
| AfterQuote (buf : list ascii).

Definition is_word_char (c : ascii) : bool :=
  is_digit c || is_upper c || is_lower c || Ascii.eqb c "_".

Definition punct (c : ascii) : option token :=
  if Ascii.eqb c "(" then Some TLParen
  else if Ascii.eqb c ")" then Some TRParen
  else if Ascii.eqb c "," then Some TComma
  else if Ascii.eqb c ";" then Some TSemi
  else if Ascii.eqb c "=" then Some TEq
  else None.

Definition lex_idle (c : ascii) : option (list token * lex_mode) :=
  if is_space c then Some ([], Idle)
  else if Ascii.eqb c "'" then Some ([], InString [])
  else match punct c with
       | Some t => Some ([t], Idle)
       | None => if is_word_char c then Some ([], InWord [lower c]) else None
       end.

Definition emit (t : token) (r : option (list token * lex_mode))
  : option (list token * lex_mode) :=
  match r with
  | Some (ts, m) => Some (t :: ts, m)
  | None => None
  end.

(** Keywords and unquoted identifiers are folded to lower case; inside a
    string literal a doubled quote stands for one quote. *)
Definition lex_step (m : lex_mode) (c : ascii) : option (list token * lex_mode) :=
  match m with
  | Idle => lex_idle c
  | InWord b =>
      if is_word_char c then Some ([], InWord (b ++ [lower c]))
      else emit (TWord (text b)) (lex_idle c)
  | InString b =>
      if Ascii.eqb c "'" then Some ([], AfterQuote b)
      else Some ([], InString (b ++ [c]))
  | AfterQuote b =>
      if Ascii.eqb c "'" then Some ([], InString (b ++ ["'"%char]))
      else emit (TString b) (lex_idle c)
  end.

Fixpoint lex_run (m : lex_mode) (l : list ascii) : option (list token * lex_mode) :=
  match l with
  | [] => Some ([], m)
  | c :: r =>
      match lex_step m c with
      | Some (ts, m') =>
          match lex_run m' r with
          | Some (ts', m'') => Some (ts ++ ts', m'')
          | None => None
          end
      | None => None
      end
  end.

Definition lex_end (m : lex_mode) : option (list token) :=
  match m with
  | Idle => Some []
  | InWord b => Some [TWord (text b)]
  | InString _ => None
  | AfterQuote b => Some [TString b]
  end.

Definition tokenize_from (m : lex_mode) (l : list ascii) : option (list token) :=
  match lex_run m l with
  | Some (ts, m') =>
      match lex_end m' with
      | Some ts' => Some (ts ++ ts')
      | None => None
      end
  | None => None
  end.

Definition tokenize (l : list ascii) : option (list token) :=
  tokenize_from Idle l.

(** *** Statements *)

Inductive coltype := DATE | VARCHAR.

Inductive stmt :=
| CreateTable (if_not_exists : bool) (name : string)
              (cols : list (string * coltype)) (pk : list string)
| InsertInto (name : string) (cols : list string) (vals : list (list ascii))
| DeleteFrom (name : string) (conds : list (string * list ascii)).

Definition coltype_of (w : string) : option coltype :=
  if String.eqb w "date" then Some DATE
  else if String.eqb w "varchar" then Some VARCHAR
  else None.

(** [name {, name} )] *)
Fixpoint name_list (ts : list token) : option (list string * list token) :=
  match ts with
  | TWord n :: TRParen :: r => Some ([n], r)
  | TWord n :: TComma :: r =>
      match name_list r with
      | Some (ns, r') => Some (n :: ns, r')
      | None => None
      end
  | _ => None
  end.

(** ['text' {, 'text'} )] *)
Fixpoint literal_list (ts : list token) : option (list (list ascii) * list token) :=
  match ts with
  | TString v :: TRParen :: r => Some ([v], r)
  | TString v :: TComma :: r =>
      match literal_list r with
      | Some (vs, r') => Some (v :: vs, r')
      | None => None
      end
  | _ => None
  end.

(** [name type {, name type} [, PRIMARY KEY ( names )] )] *)
Fixpoint column_defs (ts : list token)
  : option (list (string * coltype) * list string * list token) :=
  match ts with
  | TWord p :: TWord k :: TLParen :: r =>
      if String.eqb p "primary" && String.eqb k "key" then
        match name_list r with
        | Some (pk, TRParen :: r') => Some ([], pk, r')
        | _ => None
        end
      else None
  | TWord n :: TWord ty :: TRParen :: r =>
      match coltype_of ty with
      | Some t => Some ([(n, t)], [], r)
      | None => None
      end
  | TWord n :: TWord ty :: TComma :: r =>
      match coltype_of ty, column_defs r with
      | Some t, Some (cs, pk, r') => Some ((n, t) :: cs, pk, r')
      | _, _ => None
      end
  | _ => None
  end.

(** [name = 'text' {AND name = 'text'}] *)
Fixpoint conditions (ts : list token)
  : option (list (string * list ascii) * list token) :=
  match ts with
  | TWord c :: TEq :: TString v :: TWord a :: r =>
      if String.eqb a "and" then
        match conditions r with
        | Some (cs, r') => Some ((c, v) :: cs, r')
        | None => None
        end
      else None
  | TWord c :: TEq :: TString v :: r => Some ([(c, v)], r)
  | _ => None
  end.

(** A statement may end with a semicolon. *)
Definition at_end (ts : list token) : bool :=
  match ts with
  | [] | [TSemi] => true
  | _ => false
  end.

Definition create_table (ine : bool) (name : string) (ts : list token)
  : option stmt :=
  match column_defs ts with
  | Some (cs, pk, r) =>
      if at_end r then Some (CreateTable ine name cs pk) else None
  | None => None
  end.

Definition parse (ts : list token) : option stmt :=
  match ts with
  | TWord a :: TWord b :: r =>
      if String.eqb a "create" && String.eqb b "table" then
        match r with
        | TWord i :: TWord n :: TWord e :: TWord name :: TLParen :: r' =>
            if String.eqb i "if" && String.eqb n "not" && String.eqb e "exists"
            then create_table true name r'
            else None
        | TWord name :: TLParen :: r' => create_table false name r'
        | _ => None
        end
      else if String.eqb a "insert" && String.eqb b "into" then
        match r with
        | TWord name :: TLParen :: r' =>
            match name_list r' with
            | Some (cs, TWord v :: TLParen :: r'') =>
                if String.eqb v "values" then
                  match literal_list r'' with
                  | Some (vs, r3) =>
                      if at_end r3 then Some (InsertInto name cs vs) else None
                  | None => None
                  end
                else None
            | _ => None
            end
        | _ => None
        end
      else if String.eqb a "delete" && String.eqb b "from" then
        match r with
        | TWord name :: TWord w :: r' =>
            if String.eqb w "where" then
              match conditions r' with
              | Some (cs, r'') =>
                  if at_end r'' then Some (DeleteFrom name cs) else None
              | None => None
              end
            else None
        | _ => None
        end
      else None
  | _ => None
  end.

(** *** Tables and the effect of a statement *)

Inductive value :=
| VNull
| VDate (y m d : Z)
| VText (s : string).

Record table := mk_table {
  columns : list (string * coltype);
  primary_key : list string;
  rows : list (list value)
}.

Inductive error :=
| TemplateError
| SyntaxError
| NotSql
| UndefinedTable (name : string)
| DuplicateTable (name : string)
| UndefinedColumn (name : string)
| InvalidDatetimeFormat
| NotNullViolation (name : string)
| UniqueViolation.

Definition result (A : Type) : Type := error + A.

Definition value_eqb (a b : value) : bool :=
  match a, b with
  | VNull, VNull => true
  | VDate y m d, VDate y' m' d' => (y =? y') && (m =? m') && (d =? d')
  | VText s, VText s' => String.eqb s s'
  | _, _ => false
  end.

(** The comparison [a = b] of a [WHERE] clause, true or not true: a null
    on either side never compares equal. *)
Definition sql_eq (a b : value) : bool :=
  match a, b with
  | VNull, _ | _, VNull => false
  | _, _ => value_eqb a b
  end.

(** A string literal read at the type of a column. *)
Definition cast (t : coltype) (v : list ascii) : result value :=
  match t with
  | VARCHAR => inr (VText (text v))
  | DATE =>
      match parse_iso v with
      | Some (y, m, d) => inr (VDate y m d)
      | None => inl InvalidDatetimeFormat
      end
  end.

Fixpoint column_index (cols : list (string * coltype)) (c : string) : option nat :=
  match cols with
  | [] => None
  | (n, _) :: r =>
      if String.eqb n c then Some O
      else match column_index r c with
           | Some i => Some (S i)
           | None => None
           end
  end.

Fixpoint column_type (cols : list (string * coltype)) (c : string) : option coltype :=
  match cols with
  | [] => None
  | (n, t) :: r => if String.eqb n c then Some t else column_type r c
  end.

(** The value a row has in column [c]. *)
Definition field (t : table) (row : list value) (c : string) : value :=
  match column_index (columns t) c with
  | Some i => nth i row VNull
  | None => VNull
  end.

Definition key_of (t : table) (row : list value) : list value :=
  map (field t row) (primary_key t).

Definition same_key (k k' : list value) : bool :=
  Nat.eqb (length k) (length k')
  && forallb (fun p => value_eqb (fst p) (snd p)) (combine k k').

(** The literal given for column [c] in an [INSERT] with column list
    [cs] and values [vs]; no literal when the column is not listed. *)
Fixpoint given (cs : list string) (vs : list (list ascii)) (c : string)
  : option (list ascii) :=
  match cs, vs with
  | n :: cs', v :: vs' => if String.eqb n c then Some v else given cs' vs' c
  | _, _ => None
  end.

Fixpoint new_row (cols : list (string * coltype)) (cs : list string)
                 (vs : list (list ascii)) : result (list value) :=
  match cols with
  | [] => inr []
  | (n, t) :: r =>
      match (match given cs vs n with
             | Some v => cast t v
             | None => inr VNull
             end), new_row r cs vs with
      | inr x, inr xs => inr (x :: xs)
      | inl e, _ => inl e
      | _, inl e => inl e
      end
  end.

Fixpoint first_unknown (cols : list (string * coltype)) (cs : list string)
  : option string :=
  match cs with
  | [] => None
  | c :: r => match column_type cols c with
              | Some _ => first_unknown cols r
              | None => Some c
              end
  end.

Fixpoint first_null (t : table) (row : list value) (pk : list string)
  : option string :=
  match pk with
  | [] => None
  | c :: r => match field t row c with
              | VNull => Some c
              | _ => first_null t row r
              end
  end.

(** The conditions of a [WHERE] clause, literals read at the type of
    their column. *)
Fixpoint typed_conditions (cols : list (string * coltype))
                          (conds : list (string * list ascii))
  : result (list (string * value)) :=
  match conds with
  | [] => inr []
  | (c, v) :: r =>
      match column_type cols c with
      | None => inl (UndefinedColumn c)
      | Some t =>
          match cast t v, typed_conditions cols r with
          | inr x, inr xs => inr ((c, x) :: xs)
          | inl e, _ => inl e
          | _, inl e => inl e
          end
      end
  end.

Definition satisfies (t : table) (conds : list (string * value))
                     (row : list value) : bool :=
  forallb (fun p => sql_eq (field t row (fst p)) (snd p)) conds.

Definition exec (s : stmt) (db : gmap string table) : result (gmap string table) :=
  match s with
  | CreateTable ine name cols pk =>
      match db !! name with
      | Some _ => if ine then inr db else inl (DuplicateTable name)
      | None =>
          match first_unknown cols pk with
          | Some c => inl (UndefinedColumn c)
          | None =>
              inr (<[name := {| columns := cols; primary_key := pk;
                                rows := [] |}]> db)
          end
      end
  | InsertInto name cs vs =>
      match db !! name with
      | None => inl (UndefinedTable name)
      | Some t =>
          match first_unknown (columns t) cs with
          | Some c => inl (UndefinedColumn c)
          | None =>
              if negb (Nat.eqb (length cs) (length vs)) then inl SyntaxError
              else
                match new_row (columns t) cs vs with
                | inl e => inl e
                | inr row =>
                    match first_null t row (primary_key t) with
                    | Some c => inl (NotNullViolation c)
                    | None =>
                        if existsb (fun r => same_key (key_of t r) (key_of t row))
                                   (rows t)
                        then inl UniqueViolation
                        else inr (<[name := {| columns := columns t;
                                               primary_key := primary_key t;
                                               rows := rows t ++ [row] |}]> db)
                    end
                end
          end
      end
  | DeleteFrom name conds =>
      match db !! name with
      | None => inl (UndefinedTable name)
      | Some t =>
          match typed_conditions (columns t) conds with
          | inl e => inl e
          | inr cs =>
              inr (<[name := {| columns := columns t;
                                primary_key := primary_key t;
                                rows := List.filter
                                          (fun r => negb (satisfies t cs r))
                                          (rows t) |}]> db)
          end
      end
  end.

(** *** Running an SQL step

    The engine renders the step's [sql] template in the run's context and
    sends the text to the database, which reads and executes it. *)
Definition statement (op : operator) (ctx : Template.context) : result stmt :=
  match sql op with
  | None => inl NotSql
  | Some template =>
      match Template.render ctx template with
      | None => inl TemplateError
      | Some q =>
          match tokenize q with
          | None => inl SyntaxError
          | Some ts =>
              match parse ts with
              | None => inl SyntaxError
              | Some s => inr s
              end
          end
      end
  end.

Definition execute (op : operator) (ctx : Template.context)
                   (db : gmap string table) : result (gmap string table) :=
  match statement op ctx with
  | inl e => inl e
  | inr s => exec s db
  end.

(** Steps run one after the other; the first failure ends the run. *)
Fixpoint run (ops : list operator) (ctx : Template.context)
             (db : gmap string table) : result (gmap string table) :=
  match ops with
  | [] => inr db
  | op :: r =>
      match execute op ctx db with
      | inl e => inl e
      | inr db' => run r ctx db'
      end
  end.

(** The table [dag_runs] with the columns and the key of the create-table
    step, holding the rows [rs]. *)
Definition dag_runs (rs : list (list value)) : table :=
  {| columns := [("dt", DATE); ("dag_id", VARCHAR)];
     primary_key := ["dt"; "dag_id"];
     rows := rs |}.

Definition no_quote (l : list ascii) : bool :=
  forallb (fun c => negb (Ascii.eqb c "'")) l.

(** The key of the row a run writes: its logical date and the identifier
    of its DAG. *)
Definition run_key (ctx : Template.context) : list value :=
  let dt := Template.logical_date ctx in
  [VDate (year dt) (month dt) (day dt); VText (dag_id (Template.dag ctx))].

(** The conditions of the delete step in a run, and the rows of
    [dag_runs] after the run's delete and insert steps. *)
Definition run_conditions (ctx : Template.context) : list (string * value) :=
  let dt := Template.logical_date ctx in
  [("dt", VDate (year dt) (month dt) (day dt));
   ("dag_id", VText (dag_id (Template.dag ctx)))].

Definition after_run (ctx : Template.context) (rs : list (list value))
  : list (list value) :=
  List.filter (fun r => negb (satisfies (dag_runs rs) (run_conditions ctx) r)) rs
  ++ [run_key ctx].

(** Every primary key occurs at most once. *)
Definition key_unique (t : table) : Prop :=
  NoDup (map (key_of t) (rows t)).

(** The number of rows of [t] whose primary key is [k]. *)
Definition count_key (t : table) (k : list value) : nat :=
  length (List.filter (fun r => same_key (key_of t r) k) (rows t)).

End Sql.


(** The texts the database receives for the insert and the delete step
    of a run with date [date] and DAG identifier [id]. *)
Definition insert_text (date id : list ascii) : list ascii :=
  Text.chars "
            INSERT INTO dag_runs (dt, dag_id) VALUES ('"
  ++ date ++ Text.chars "', '" ++ id ++ Text.chars "')
        ".

Definition delete_text (date id : list ascii) : list ascii :=
  Text.chars "
            DELETE FROM dag_runs WHERE dt = '"
  ++ date ++ Text.chars "' and dag_id = '" ++ id ++ Text.chars "';
        ".

(** A run of the third DAG on its start date, and a database in which
    [dag_runs] holds the rows of two runs, one of them this run's. *)
Definition example_context : Template.context :=
  {| Template.logical_date := datetime 2025 12 16;
     Template.dag :=
       default {| dag_id := ""; Airflow.default_args := ∅; description := None;
                  start_date := None; schedule := None; catchup := false;
                  tasks := []; edges := [] |}
               dag_with_postgres_operator.dag |}.

Definition example_rows : list (list Sql.value) :=
  [[Sql.VDate 2025 12 15; Sql.VText "dag_with_postgres_operator_v03"];
   [Sql.VDate 2025 12 16; Sql.VText "dag_with_postgres_operator_v03"]].

Definition example_db : gmap string Sql.table :=
  <["dag_runs" := Sql.dag_runs example_rows]> ∅.

(** A property [P] of a DAG file: the file builds its DAG without an error
    and the DAG has [P]. *)
Definition built (P : DAG -> Prop) (od : option DAG) : Prop :=
  exists d, od = Some d /\ P d.

(** A step carries a shell command or an SQL text that is not empty. *)
Definition step_text (op : operator) : string :=
  match op with
  | BashOperator _ c => c
  | SQLExecuteQueryOperator _ _ q => q
  end.

(** What a DAG file declares: an identifier, a retry policy (count and
    delay) in its default arguments, a schedule, at least one step, each
    with a shell command or an SQL text, and an order between any two
    different steps. *)
Definition declares_workflow (d : DAG) : Prop :=
  dag_id d <> ""
  /\ (exists n td, default_args d !! "retries" = Some (PyInt n)
                   /\ default_args d !! "retry_delay" = Some (PyTimedelta td))
  /\ (exists s, schedule d = Some s)
  /\ tasks d <> []
  /\ Forall (fun op => step_text op <> "") (tasks d)
  /\ Graph.ordered d = true.

(** ** Orders of execution and well-formed DAGs *)

Module Plan.
Import Graph.

Fixpoint position (a : string) (l : list string) : option nat :=
  match l with
  | [] => None
  | x :: r => if String.eqb x a then Some O
              else match position a r with
                   | Some i => Some (S i)
                   | None => None
                   end
  end.

(** In the order [l] task [a] runs before task [b]. *)
Definition runs_before (l : list string) (a b : string) : bool :=
  match position a l, position b l with
  | Some i, Some j => Nat.ltb i j
  | _, _ => false
  end.

(** An order in which the engine may run the tasks of [d]: every task
    once, the upstream task of every edge before the downstream one. *)
Definition admissible (d : DAG) (l : list string) : Prop :=
  Permutation l (task_ids d)
  /\ forallb (fun e => runs_before l (fst e) (snd e)) (edges d) = true.

(** No task is reached from itself. *)
Definition acyclic (d : DAG) : bool :=
  forallb (fun a => negb (precedes d a a)) (task_ids d).

Definition conn_id (op : operator) : option string :=
  match op with
  | BashOperator _ _ => None
  | SQLExecuteQueryOperator _ c _ => Some c
  end.

(** The task identifiers are valid and pairwise different, every edge
    joins two different tasks of the DAG, no edge is recorded twice and
    the edges form no cycle. *)
Definition well_formed (d : DAG) : Prop :=
  NoDup (task_ids d)
  /\ Forall (fun t => valid_key t = true) (task_ids d)
  /\ Forall (fun e => In (fst e) (task_ids d) /\ In (snd e) (task_ids d)
                      /\ fst e <> snd e) (edges d)
  /\ NoDup (edges d)
  /\ acyclic d = true.

End Plan.

(** The run of the third DAG on the day after [example_context]'s. *)
Definition next_context : Template.context :=
  {| Template.logical_date := datetime 2025 12 17;
     Template.dag := Template.dag example_context |}.

(** * Properties of the DAG files *)

Section Configuration.

Import Graph.

Lemma built_intro (P : DAG -> Prop) (od : option DAG) (d : DAG) :
  od = Some d -> P d -> built P od.
Proof. intros Hd HP. exists d. split; assumption. Qed.

(** The three files build their DAGs: no identifier is rejected, no task
    identifier is used twice, every edge joins tasks of the DAG. *)
Lemma all_dags_built : Forall (built (fun _ => True)) all_dags.
Proof.
  unfold all_dags.
  repeat constructor; (eapply built_intro; [vm_compute; reflexivity | exact I]).
Qed.

(** C1: the third DAG has exactly the three steps create_postgres_table,
    insert_into_table and delete_data_from_table; its declared edges are
    exactly task1 -> task3 and task3 -> task2, so the create-table step
    precedes the delete step and the delete step precedes the insert step. *)
Theorem postgres_dag_steps_and_edges :
  built (fun d =>
    tasks d = [dag_with_postgres_operator.task1;
               dag_with_postgres_operator.task2;
               dag_with_postgres_operator.task3]
    /\ task_ids d = ["create_postgres_table"; "insert_into_table";
                     "delete_data_from_table"]
    /\ length (tasks d) = 3%nat
    /\ edges d = [("create_postgres_table", "delete_data_from_table");
                  ("delete_data_from_table", "insert_into_table")]
    /\ precedes d "create_postgres_table" "delete_data_from_table" = true
    /\ precedes d "delete_data_from_table" "insert_into_table" = true
    /\ precedes d "insert_into_table" "delete_data_from_table" = false
    /\ precedes d "delete_data_from_table" "create_postgres_table" = false)
  dag_with_postgres_operator.dag.
Proof.
  eapply built_intro.
  - vm_compute. reflexivity.
  - repeat split; vm_compute; reflexivity.
Qed.

(** C2: in each of the three DAGs the default-argument mapping gives
    [retries] the integer 5, which is not negative. *)
Theorem default_retries_five :
  Forall (built (fun d =>
            exists n, default_args d !! "retries" = Some (PyInt n)
                      /\ n = 5 /\ 0 <= n))
         all_dags.
Proof.
  unfold all_dags.
  repeat constructor;
    (eapply built_intro;
     [ vm_compute; reflexivity
     | exists 5; split; [vm_compute; reflexivity | lia] ]).
Qed.

(** C3: every DAG identifier is a non-empty string and the three
    identifiers are pairwise different. *)
Theorem dag_ids_nonempty_unique :
  Forall (built (fun d => dag_id d <> "")) all_dags
  /\ NoDup (map (fmap dag_id) all_dags).
Proof.
  split.
  - unfold all_dags.
    repeat constructor;
      (eapply built_intro; [vm_compute; reflexivity | discriminate]).
  - assert (Hids : map (fmap dag_id) all_dags
                   = [Some "dag_with_catchup_and_backfill_v02";
                      Some "dag_with_cron_expression_v04";
                      Some "dag_with_postgres_operator_v03"])
      by (vm_compute; reflexivity).
    rewrite Hids.
    repeat constructor; rewrite ?list_elem_of_In; simpl; intuition discriminate.
Qed.

(** C4: the schedules are [@daily], [0 3 * * Tue] and [0 0 * * *], and
    each of them is a preset name or a well-formed five-field cron
    expression. *)
Theorem schedules_well_formed :
  map (fmap schedule) all_dags
  = [Some (Some "@daily"); Some (Some "0 3 * * Tue"); Some (Some "0 0 * * *")]
  /\ Forall (built (fun d =>
               exists s, schedule d = Some s /\ Cron.schedule_ok s = true))
            all_dags
  /\ Cron.is_preset "@daily" = true
  /\ Cron.cron_ok "0 3 * * Tue" = true
  /\ Cron.cron_ok "0 0 * * *" = true.
Proof.
  split; [vm_compute; reflexivity |].
  split; [| repeat split; vm_compute; reflexivity].
  unfold all_dags.
  repeat constructor;
    (eapply built_intro;
     [ vm_compute; reflexivity
     | eexists; split; [reflexivity | vm_compute; reflexivity] ]).
Qed.

(** [days_from first n] holds the [n] days from [first] on. *)
Lemma days_from_spec (first : Z) (n : nat) (x : Z) :
  In x (Scheduler.days_from first n) <-> first <= x < first + Z.of_nat n.
Proof.
  unfold Scheduler.days_from. rewrite in_map_iff. split.
  - intros [k [Hk Hin]]. apply in_seq in Hin. lia.
  - intros Hx. exists (Z.to_nat (x - first)). split; [lia |].
    apply in_seq. lia.
Qed.

Lemma runs_due_catchup (t : Scheduler.timetable) (d : DAG) (sd : datetime_t)
                        (s : string) (today : Z) :
  start_date d = Some sd -> schedule d = Some s ->
  Scheduler.is_daily s = true -> catchup d = true ->
  Scheduler.runs_due t d today
  = Some (Scheduler.days_from (Calendar.toordinal sd)
            (Z.to_nat (Scheduler.last_due t today + 1 - Calendar.toordinal sd))).
Proof.
  intros Hsd Hs Hdaily Hc. unfold Scheduler.runs_due.
  rewrite Hsd, Hs, Hdaily, Hc. reflexivity.
Qed.

Lemma last_due_bounds (t : Scheduler.timetable) (today : Z) :
  today - 1 <= Scheduler.last_due t today <= today.
Proof. destruct t; simpl; lia. Qed.

(** C5: the catchup/backfill DAG declares the start date 2025-12-21 and
    sets [catchup] to true, on a daily schedule; so, under either setting
    of the engine's timetable, the runs executed on any day are those of
    the scheduled days from the start date up to the last one that is due,
    and among them is every day from the start date on that lies before
    the current day: all missed runs between the start date and now are
    executed, and no other. *)
Theorem catchup_dag_backfills :
  built (fun d =>
    start_date d = Some (datetime 2025 12 21)
    /\ catchup d = true
    /\ schedule d = Some "@daily"
    /\ forall t today, exists runs,
         Scheduler.runs_due t d today = Some runs
         /\ (forall day,
               In day runs
               <-> Calendar.toordinal (datetime 2025 12 21) <= day
                   <= Scheduler.last_due t today)
         /\ (forall day,
               Calendar.toordinal (datetime 2025 12 21) <= day < today
               -> In day runs)
         /\ (forall day,
               In day runs
               -> Calendar.toordinal (datetime 2025 12 21) <= day <= today))
  dag_with_catchup_and_backfill.dag.
Proof.
  eapply built_intro.
  - vm_compute. reflexivity.
  - split; [reflexivity |]. split; [reflexivity |]. split; [reflexivity |].
    intros t today. eexists. split.
    + apply (runs_due_catchup t _ (datetime 2025 12 21) "@daily");
        reflexivity.
    + pose proof (last_due_bounds t today) as Hb.
      repeat split; intros; rewrite days_from_spec in *; lia.
Qed.

(** C6: each of the three files declares an identifier, a default retry
    policy, a schedule and one or more steps with a shell command or an
    SQL text; the first two have a single step and no edge, the third has
    three steps which its edges put in a total order. *)
Theorem every_file_declares_a_workflow :
  Forall (built declares_workflow) all_dags
  /\ map (fmap (fun d => (length (tasks d), length (edges d)))) all_dags
     = [Some (1%nat, 0%nat); Some (1%nat, 0%nat); Some (3%nat, 2%nat)].
Proof.
  split; [| vm_compute; reflexivity].
  unfold all_dags.
  repeat constructor;
    (eapply built_intro; [vm_compute; reflexivity |]);
    (split; [discriminate |]);
    (split; [do 2 eexists; split; vm_compute; reflexivity |]);
    (split; [eexists; reflexivity |]);
    (split; [discriminate |]);
    (split; [repeat constructor; discriminate | vm_compute; reflexivity]).
Qed.

(** C8: the catchup flag is true in the catchup/backfill DAG and in the
    cron-expression DAG and false in the postgres DAG. *)
Theorem catchup_flags :
  catchup <$> dag_with_catchup_and_backfill.dag = Some true
  /\ catchup <$> dag_with_cron_expression.dag = Some true
  /\ catchup <$> dag_with_postgres_operator.dag = Some false
  /\ ~ (exists b, Forall (fun od => catchup <$> od = Some b) all_dags).
Proof.
  repeat split; try (vm_compute; reflexivity).
  intros [b Hall]. unfold all_dags in Hall.
  inversion Hall as [| ? ? H1 Hall']; subst.
  inversion Hall' as [| ? ? H2 Hall'']; subst.
  inversion Hall'' as [| ? ? H3 _]; subst.
  vm_compute in H1. vm_compute in H3. congruence.
Qed.

End Configuration.

(** * The SQL steps of the third DAG *)

Section Dates.

Import Text Calendar.

Lemma digit_cases (k : Z) :
  0 <= k <= 9 ->
  k = 0 \/ k = 1 \/ k = 2 \/ k = 3 \/ k = 4 \/ k = 5 \/ k = 6 \/ k = 7
  \/ k = 8 \/ k = 9.
Proof. lia. Qed.

Ltac each_digit H :=
  apply digit_cases in H;
  repeat (destruct H as [H | H]; [subst; vm_compute; reflexivity |]);
  subst; vm_compute; reflexivity.

Ltac div_lia := Z.div_mod_to_equations; lia.

Lemma is_digit_digit_char (k : Z) : 0 <= k <= 9 -> is_digit (digit_char k) = true.
Proof. intros H. each_digit H. Qed.

Lemma digit_value_digit_char (k : Z) : 0 <= k <= 9 -> digit_value (digit_char k) = k.
Proof. intros H. each_digit H. Qed.

Lemma digit_char_not_quote (k : Z) : 0 <= k <= 9 -> Ascii.eqb (digit_char k) "'" = false.
Proof. intros H. each_digit H. Qed.

Lemma number_two_digits (n : Z) : 0 <= n <= 99 -> number (two_digits n) = Some n.
Proof.
  intros H. unfold two_digits, number, number_from.
  rewrite !is_digit_digit_char, !digit_value_digit_char by div_lia.
  f_equal. div_lia.
Qed.

Lemma number_four_digits (n : Z) : 0 <= n <= 9999 -> number (four_digits n) = Some n.
Proof.
  intros H. unfold four_digits, number, number_from.
  rewrite !is_digit_digit_char, !digit_value_digit_char by div_lia.
  f_equal. div_lia.
Qed.

Lemma days_in_month_le (y m : Z) : days_in_month y m <= 31.
Proof.
  unfold days_in_month. destruct (_ && _); [lia |].
  destruct (Z.to_nat m) as [| [| [| [| [| [| [| [| [| [| [| [| [| k]]]]]]]]]]]]];
    simpl; try lia.
  destruct k; simpl; lia.
Qed.

Lemma valid_ymd_bounds (y m d : Z) :
  valid_ymd y m d = true ->
  1000 <= y <= 9999 /\ 1 <= m <= 12 /\ 1 <= d <= 31.
Proof.
  unfold valid_ymd. intros H.
  repeat (apply andb_prop in H; destruct H as [H ?]).
  pose proof (days_in_month_le y m). lia.
Qed.

(** Reading the rendering of a date gives the date back. *)
Lemma parse_iso_isoformat (dt : datetime_t) :
  valid_date dt = true ->
  parse_iso (isoformat dt) = Some (year dt, month dt, day dt).
Proof.
  unfold valid_date. intros Hv.
  destruct (valid_ymd_bounds _ _ _ Hv) as [Hy [Hm Hd]].
  pose proof (number_four_digits (year dt) ltac:(lia)) as Ny.
  pose proof (number_two_digits (month dt) ltac:(lia)) as Nm.
  pose proof (number_two_digits (day dt) ltac:(lia)) as Nd.
  unfold four_digits in Ny. unfold two_digits in Nm, Nd.
  unfold isoformat, four_digits, two_digits, parse_iso. cbn [app].
  replace (Ascii.eqb "-" "-") with true by reflexivity. cbn [andb].
  rewrite Ny, Nm, Nd, Hv. reflexivity.
Qed.

(** The rendering of a date holds no quote. *)
Lemma isoformat_no_quote (dt : datetime_t) :
  valid_date dt = true ->
  forallb (fun c => negb (Ascii.eqb c "'")) (isoformat dt) = true.
Proof.
  unfold valid_date. intros Hv.
  destruct (valid_ymd_bounds _ _ _ Hv) as [Hy [Hm Hd]].
  unfold isoformat, four_digits, two_digits. cbn [app forallb].
  rewrite !digit_char_not_quote by div_lia. reflexivity.
Qed.

End Dates.

Section Rendering.

Import Text Calendar Template.

(** The engine's rendering of the insert step puts the run's date and
    the DAG's identifier in the places of the two templates. *)
Lemma render_insert (ctx : context) (q : string) :
  sql dag_with_postgres_operator.task2 = Some q ->
  render ctx q
  = Some (insert_text (isoformat (logical_date ctx)) (chars (dag_id (dag ctx)))).
Proof. intros Hq. injection Hq as <-. reflexivity. Qed.

(** The same for the delete step. *)
Lemma render_delete (ctx : context) (q : string) :
  sql dag_with_postgres_operator.task3 = Some q ->
  render ctx q
  = Some (delete_text (isoformat (logical_date ctx)) (chars (dag_id (dag ctx)))).
Proof. intros Hq. injection Hq as <-. reflexivity. Qed.

(** The create-table step has no template: its rendering is its text. *)
Lemma render_create (ctx : context) (q : string) :
  sql dag_with_postgres_operator.task1 = Some q ->
  render ctx q = Some (chars q).
Proof. intros Hq. injection Hq as <-. reflexivity. Qed.

End Rendering.

Section Reading.

Import Text Calendar Template Sql.

(** Reading a text in two parts. *)
Lemma lex_run_app (m : lex_mode) (x y : list ascii) :
  lex_run m (x ++ y)
  = match lex_run m x with
    | Some (ts, m') =>
        match lex_run m' y with
        | Some (ts', m'') => Some (ts ++ ts', m'')
        | None => None
        end
    | None => None
    end.
Proof.
  revert m. induction x as [| c x IH]; intros m; simpl.
  - destruct (lex_run m y) as [[ts' m''] |]; reflexivity.
  - destruct (lex_step m c) as [[ts m'] |]; [| reflexivity].
    rewrite IH.
    destruct (lex_run m' x) as [[ts1 m1] |]; [| reflexivity].
    destruct (lex_run m1 y) as [[ts2 m2] |]; [| reflexivity].
    rewrite app_assoc. reflexivity.
Qed.

(** Inside a string literal, characters other than the quote are taken
    as they are. *)
Lemma lex_run_in_string (b a : list ascii) :
  no_quote a = true ->
  lex_run (InString b) a = Some ([], InString (b ++ a)).
Proof.
  revert b. induction a as [| c a IH]; intros b Hq; simpl.
  - rewrite app_nil_r. reflexivity.
  - simpl in Hq. apply andb_prop in Hq. destruct Hq as [Hc Ha].
    apply negb_true_iff in Hc. rewrite Hc, (IH _ Ha), <- app_assoc.
    reflexivity.
Qed.

(** The characters of a valid key are no quotes. *)
Lemma key_char_no_quote (c : ascii) :
  key_char c = true -> negb (Ascii.eqb c "'") = true.
Proof.
  intros Hk. destruct (Ascii.eqb_spec c "'") as [-> | Hne]; [| reflexivity].
  vm_compute in Hk. discriminate.
Qed.

Lemma key_body_no_quote (l : list ascii) :
  no_quote (key_body l) = true -> no_quote l = true.
Proof.
  unfold key_body. destruct (rev l) as [| c r] eqn:E; [| destruct (code c =? 10)%N eqn:Ec].
  - intros _. apply (f_equal (@rev ascii)) in E. rewrite rev_involutive in E.
    rewrite E. reflexivity.
  - intros H. apply (f_equal (@rev ascii)) in E. rewrite rev_involutive in E.
    rewrite E. cbn [rev]. unfold no_quote in *. rewrite forallb_app, H.
    cbn [forallb]. destruct (Ascii.eqb_spec c "'") as [-> | Hne];
      [vm_compute in Ec; discriminate | reflexivity].
  - intros H. exact H.
Qed.

Lemma valid_key_no_quote (k : string) :
  valid_key k = true -> no_quote (chars k) = true.
Proof.
  unfold valid_key. intros H. apply key_body_no_quote.
  destruct (key_body (chars k)) as [| c l] eqn:E; [discriminate |].
  apply andb_prop in H. destruct H as [H _].
  unfold no_quote. rewrite forallb_forall in H |- *.
  intros x Hx. apply key_char_no_quote, H, Hx.
Qed.

Lemma text_chars (s : string) : text (chars s) = s.
Proof. apply string_of_list_ascii_of_string. Qed.

(** A text of the shape [prefix 'a' middle 'b' suffix] in which [a] and
    [b] hold no quote is read as the tokens of the prefix, the literal
    [a], the tokens of the middle, the literal [b] and the tokens of the
    suffix. *)
Lemma tokenize_two_literals (p mid suf a b : list ascii)
                            (tp tm tsuf : list token) :
  lex_run Idle p = Some (tp, InString []) ->
  (forall x, lex_run (InString x) mid = Some (TString x :: tm, InString [])) ->
  (forall x, tokenize_from (InString x) suf = Some (TString x :: tsuf)) ->
  no_quote a = true -> no_quote b = true ->
  tokenize (p ++ a ++ mid ++ b ++ suf)
  = Some (tp ++ TString a :: tm ++ TString b :: tsuf).
Proof.
  intros Hp Hm Hs Ha Hb. unfold tokenize, tokenize_from in *.
  rewrite lex_run_app, Hp.
  rewrite lex_run_app, (lex_run_in_string _ _ Ha). simpl app.
  rewrite lex_run_app, Hm.
  rewrite lex_run_app, (lex_run_in_string _ _ Hb). simpl app.
  specialize (Hs b).
  destruct (lex_run (InString b) suf) as [[ts m] |]; [| discriminate].
  destruct (lex_end m) as [te |]; [| discriminate].
  injection Hs as Hs. rewrite <- !app_assoc. simpl. rewrite <- app_assoc.
  rewrite Hs. reflexivity.
Qed.

End Reading.

Section Statements.

Import dag_with_postgres_operator.
Import Text Calendar Template Sql.

Variable ctx : context.

(** The create-table step is [CREATE TABLE IF NOT EXISTS dag_runs] with a
    date column, a text column and both of them as the key, whatever the
    run. *)
Lemma statement_create :
  statement task1 ctx
  = inr (CreateTable true "dag_runs" [("dt", DATE); ("dag_id", VARCHAR)]
                     ["dt"; "dag_id"]).
Proof. vm_compute. reflexivity. Qed.

Hypothesis date_ok : valid_date (logical_date ctx) = true.
Hypothesis id_ok : valid_key (dag_id (dag ctx)) = true.

Lemma statement_delete :
  statement task3 ctx
  = inr (DeleteFrom "dag_runs"
           [("dt", isoformat (logical_date ctx));
            ("dag_id", chars (dag_id (dag ctx)))]).
Proof.
  unfold statement. cbn [sql task3].
  rewrite (render_delete ctx _ eq_refl). unfold delete_text.
  erewrite tokenize_two_literals; cycle 1.
  - vm_compute. reflexivity.
  - intros x. vm_compute. reflexivity.
  - intros x. vm_compute. reflexivity.
  - apply isoformat_no_quote, date_ok.
  - apply valid_key_no_quote, id_ok.
  - reflexivity.
Qed.

Lemma statement_insert :
  statement task2 ctx
  = inr (InsertInto "dag_runs" ["dt"; "dag_id"]
           [isoformat (logical_date ctx); chars (dag_id (dag ctx))]).
Proof.
  unfold statement. cbn [sql task2].
  rewrite (render_insert ctx _ eq_refl). unfold insert_text.
  erewrite tokenize_two_literals; cycle 1.
  - vm_compute. reflexivity.
  - intros x. vm_compute. reflexivity.
  - intros x. vm_compute. reflexivity.
  - apply isoformat_no_quote, date_ok.
  - apply valid_key_no_quote, id_ok.
  - reflexivity.
Qed.

End Statements.

Section Execution.

Import dag_with_postgres_operator.
Import Text Calendar Template Sql.

Lemma value_eqb_eq (a b : value) : value_eqb a b = true <-> a = b.
Proof.
  destruct a, b; simpl; split; intros H;
    try discriminate; try reflexivity.
  - apply andb_prop in H. destruct H as [H Hd].
    apply andb_prop in H. destruct H as [Hy Hm].
    apply Z.eqb_eq in Hy, Hm, Hd. congruence.
  - injection H as -> -> ->. rewrite !Z.eqb_refl. reflexivity.
  - apply String.eqb_eq in H. congruence.
  - injection H as ->. apply String.eqb_refl.
Qed.

(** In [dag_runs] both columns belong to the key. *)
Lemma key_of_dag_runs (rs : list (list value)) (r : list value) :
  key_of (dag_runs rs) r = [nth 0 r VNull; nth 1 r VNull].
Proof. reflexivity. Qed.

Lemma same_key_pair (a b a' b' : value) :
  same_key [a; b] [a'; b'] = value_eqb a a' && value_eqb b b'.
Proof. unfold same_key. simpl. rewrite andb_true_r. reflexivity. Qed.

Lemma same_key_pair_eq (a b a' b' : value) :
  same_key [a; b] [a'; b'] = true <-> [a; b] = [a'; b'].
Proof.
  rewrite same_key_pair, andb_true_iff, !value_eqb_eq. split.
  - intros [-> ->]. reflexivity.
  - intros H. injection H as -> ->. split; reflexivity.
Qed.

Lemma existsb_filter_negb {A : Type} (p : A -> bool) (l : list A) :
  existsb p (List.filter (fun x => negb (p x)) l) = false.
Proof.
  induction l as [| x l IH]; [reflexivity |].
  simpl. destruct (p x) eqn:E; simpl; [exact IH |].
  rewrite E. exact IH.
Qed.

Variable ctx : context.

(** A row meets the conditions of the run's delete step exactly when its
    key is the key of the run. *)
Lemma satisfies_run_conditions (rs : list (list value)) (r : list value) :
  satisfies (dag_runs rs) (run_conditions ctx) r
  = same_key (key_of (dag_runs rs) r) (run_key ctx).
Proof.
  rewrite key_of_dag_runs. unfold run_key. rewrite same_key_pair.
  unfold satisfies, run_conditions. cbn [forallb fst snd].
  change (field (dag_runs rs) r "dt") with (nth 0 r VNull).
  change (field (dag_runs rs) r "dag_id") with (nth 1 r VNull).
  rewrite andb_true_r.
  destruct (nth 0 r VNull), (nth 1 r VNull); reflexivity.
Qed.

Lemma delete_removes_key (rs1 rs2 rs : list (list value)) :
  existsb (fun r => same_key (key_of (dag_runs rs1) r) (run_key ctx))
    (List.filter
       (fun r => negb (satisfies (dag_runs rs2) (run_conditions ctx) r)) rs)
  = false.
Proof.
  rewrite (List.filter_ext _
             (fun r => negb (same_key (key_of (dag_runs rs1) r) (run_key ctx))))
    by (intros r; rewrite satisfies_run_conditions; reflexivity).
  apply existsb_filter_negb.
Qed.

Hypothesis date_ok : valid_date (logical_date ctx) = true.
Hypothesis id_ok : valid_key (dag_id (dag ctx)) = true.

(** The delete step removes the rows with the key of the run and keeps
    the others. *)
Lemma execute_delete (db : gmap string table) (rs : list (list value)) :
  db !! "dag_runs" = Some (dag_runs rs) ->
  execute task3 ctx db
  = inr (<["dag_runs" :=
           dag_runs (List.filter
                       (fun r => negb (satisfies (dag_runs rs)
                                                 (run_conditions ctx) r))
                       rs)]> db).
Proof.
  intros Hdb. unfold execute.
  rewrite (statement_delete ctx date_ok id_ok).
  unfold exec. rewrite Hdb.
  cbn [typed_conditions columns dag_runs].
  change (column_type [("dt", DATE); ("dag_id", VARCHAR)] "dt")
    with (Some DATE).
  change (column_type [("dt", DATE); ("dag_id", VARCHAR)] "dag_id")
    with (Some VARCHAR).
  unfold cast. rewrite (parse_iso_isoformat _ date_ok), text_chars.
  reflexivity.
Qed.

(** The insert step adds the row of the run when no row has its key, and
    fails with a unique violation when one has. *)
Lemma execute_insert (db : gmap string table) (rs : list (list value)) :
  db !! "dag_runs" = Some (dag_runs rs) ->
  execute task2 ctx db
  = if existsb (fun r => same_key (key_of (dag_runs rs) r) (run_key ctx)) rs
    then inl UniqueViolation
    else inr (<["dag_runs" := dag_runs (rs ++ [run_key ctx])]> db).
Proof.
  intros Hdb. unfold execute.
  rewrite (statement_insert ctx date_ok id_ok).
  unfold exec. rewrite Hdb.
  change (first_unknown (columns (dag_runs rs)) ["dt"; "dag_id"]) with (@None string).
  cbn [length Nat.eqb negb].
  assert (Hrow : new_row (columns (dag_runs rs)) ["dt"; "dag_id"]
                   [isoformat (logical_date ctx); chars (dag_id (dag ctx))]
                 = inr (run_key ctx)).
  { cbn [new_row columns dag_runs].
    change (given ["dt"; "dag_id"]
              [isoformat (logical_date ctx); chars (dag_id (dag ctx))] "dt")
      with (Some (isoformat (logical_date ctx))).
    change (given ["dt"; "dag_id"]
              [isoformat (logical_date ctx); chars (dag_id (dag ctx))] "dag_id")
      with (Some (chars (dag_id (dag ctx)))).
    unfold cast. rewrite (parse_iso_isoformat _ date_ok), text_chars.
    reflexivity. }
  rewrite Hrow.
  change (first_null (dag_runs rs) (run_key ctx) (primary_key (dag_runs rs)))
    with (@None string).
  cbv beta iota.
  change (key_of (dag_runs rs) (run_key ctx)) with (run_key ctx).
  reflexivity.
Qed.

(** The delete step followed by the insert step. *)
Lemma run_delete_insert (db : gmap string table) (rs : list (list value)) :
  db !! "dag_runs" = Some (dag_runs rs) ->
  run [task3; task2] ctx db
  = inr (<["dag_runs" := dag_runs (after_run ctx rs)]> db).
Proof.
  intros Hdb. unfold run.
  rewrite (execute_delete db rs Hdb).
  rewrite (execute_insert _ _ (lookup_insert_eq db "dag_runs" _)).
  rewrite delete_removes_key. cbv beta iota.
  rewrite insert_insert_eq. reflexivity.
Qed.

(** The rows after a run, by the key of the run. *)
Lemma after_run_by_key (rs : list (list value)) :
  after_run ctx rs
  = List.filter (fun r => negb (same_key (key_of (dag_runs []) r) (run_key ctx)))
                rs
    ++ [run_key ctx].
Proof.
  unfold after_run. f_equal. apply List.filter_ext. intros r.
  rewrite satisfies_run_conditions. reflexivity.
Qed.

Lemma run_key_same : same_key (key_of (dag_runs []) (run_key ctx)) (run_key ctx) = true.
Proof.
  change (key_of (dag_runs []) (run_key ctx)) with (run_key ctx).
  unfold run_key. apply same_key_pair_eq. reflexivity.
Qed.

Lemma filter_filter_negb {A : Type} (p : A -> bool) (l : list A) :
  List.filter p (List.filter (fun x => negb (p x)) l) = [].
Proof.
  induction l as [| x l IH]; [reflexivity |].
  simpl. destruct (p x) eqn:E; simpl; [exact IH |].
  rewrite E. exact IH.
Qed.

Lemma filter_idempotent {A : Type} (p : A -> bool) (l : list A) :
  List.filter p (List.filter p l) = List.filter p l.
Proof.
  induction l as [| x l IH]; [reflexivity |].
  simpl. destruct (p x) eqn:E; simpl; [| exact IH].
  rewrite E, IH. reflexivity.
Qed.

Lemma NoDup_map_filter {A B : Type} (g : A -> B) (p : A -> bool) (l : list A) :
  NoDup (map g l) -> NoDup (map g (List.filter p l)).
Proof.
  induction l as [| x l IH]; simpl; intros H; [constructor |].
  apply NoDup_cons in H. destruct H as [Hx Hl].
  destruct (p x); simpl; [| exact (IH Hl)].
  apply NoDup_cons. split; [| exact (IH Hl)].
  intros Hin. apply Hx.
  apply list_elem_of_In in Hin. apply list_elem_of_In.
  apply in_map_iff in Hin. destruct Hin as [y [Hy Hin]].
  apply List.filter_In in Hin. apply in_map_iff. exists y. tauto.
Qed.

(** After the two steps exactly one row has the key of the run. *)
Lemma after_run_count (rs : list (list value)) :
  count_key (dag_runs (after_run ctx rs)) (run_key ctx) = 1%nat.
Proof.
  unfold count_key. cbn [rows dag_runs].
  change (key_of (dag_runs (after_run ctx rs))) with (key_of (dag_runs [])).
  rewrite after_run_by_key, List.filter_app.
  rewrite (filter_filter_negb
             (fun r => same_key (key_of (dag_runs []) r) (run_key ctx))).
  cbn [List.filter app]. rewrite run_key_same. reflexivity.
Qed.

(** Rows with another key are neither removed nor added. *)
Lemma after_run_others (rs : list (list value)) (r : list value) :
  key_of (dag_runs rs) r <> run_key ctx ->
  In r (after_run ctx rs) <-> In r rs.
Proof.
  intros Hne. rewrite after_run_by_key, in_app_iff, List.filter_In.
  assert (Hr : same_key (key_of (dag_runs []) r) (run_key ctx) = false).
  { destruct (same_key _ _) eqn:E; [| reflexivity].
    exfalso. apply Hne. unfold run_key in *.
    rewrite key_of_dag_runs in *. apply same_key_pair_eq, E. }
  rewrite Hr. simpl. split.
  - intros [[H _] | [H | []]]; [exact H |].
    exfalso. apply Hne. rewrite <- H. reflexivity.
  - intros H. left. split; [exact H | reflexivity].
Qed.

(** The key stays unique. *)
Lemma after_run_key_unique (rs : list (list value)) :
  key_unique (dag_runs rs) -> key_unique (dag_runs (after_run ctx rs)).
Proof.
  unfold key_unique. cbn [rows dag_runs].
  change (key_of (dag_runs (after_run ctx rs))) with (key_of (dag_runs [])).
  change (key_of (dag_runs rs)) with (key_of (dag_runs [])).
  intros Hu. rewrite after_run_by_key, map_app. apply NoDup_app.
  split; [apply NoDup_map_filter, Hu |].
  split; [| cbn; apply NoDup_singleton].
  intros k Hk Hin. cbn in Hin. apply list_elem_of_In in Hin, Hk.
  destruct Hin as [<- | []].
  apply in_map_iff in Hk. destruct Hk as [r [Hr Hin]].
  apply List.filter_In in Hin. destruct Hin as [_ Hin].
  apply negb_true_iff in Hin.
  change (key_of (dag_runs []) (run_key ctx)) with (run_key ctx) in Hr.
  rewrite Hr in Hin. pose proof run_key_same as Hs.
  change (key_of (dag_runs []) (run_key ctx)) with (run_key ctx) in Hs.
  change (same_key (run_key ctx) (run_key ctx) = false) in Hin. congruence.
Qed.

(** Running the two steps a second time changes nothing. *)
Lemma after_run_idempotent (rs : list (list value)) :
  after_run ctx (after_run ctx rs) = after_run ctx rs.
Proof.
  rewrite (after_run_by_key (after_run ctx rs)), (after_run_by_key rs).
  rewrite List.filter_app, filter_idempotent. cbn [List.filter].
  rewrite run_key_same. cbn. rewrite app_nil_r. reflexivity.
Qed.

End Execution.

Section SqlSteps.

Import dag_with_postgres_operator.
Import Text Calendar Template Sql.

(** C7: the insert step and the delete step of the third DAG carry SQL
    texts that contain both [{{ ds }}] and [{{ dag.dag_id }}]; the DAG file
    leaves them in place, and it is the engine's rendering that puts the
    run's date and the DAG's identifier there. *)
Theorem sql_steps_carry_templates :
  built (fun d => In task2 (tasks d) /\ In task3 (tasks d))
        dag_with_postgres_operator.dag
  /\ Forall (fun op => exists q, sql op = Some q
                                 /\ contains q "{{ ds }}" = true
                                 /\ contains q "{{ dag.dag_id }}" = true)
            [task2; task3]
  /\ forall ctx,
       (sql task2 ≫= render ctx)
       = Some (insert_text (isoformat (logical_date ctx))
                           (chars (dag_id (dag ctx))))
       /\ (sql task3 ≫= render ctx)
          = Some (delete_text (isoformat (logical_date ctx))
                              (chars (dag_id (dag ctx)))).
Proof.
  split.
  { eapply built_intro; [vm_compute; reflexivity |].
    split; simpl; tauto. }
  split.
  { repeat constructor;
      (eexists; split; [reflexivity | split; vm_compute; reflexivity]). }
  intros ctx. split.
  - exact (render_insert ctx _ eq_refl).
  - exact (render_delete ctx _ eq_refl).
Qed.

(** C9: the create-table step is a [CREATE TABLE IF NOT EXISTS]; run on a
    database in which [dag_runs] exists it succeeds and leaves the database
    as it was, also when run twice; and from any database a second
    execution changes nothing. *)
Theorem create_table_keeps_existing
    (ctx : context) (db : gmap string table) (t : table) :
  db !! "dag_runs" = Some t ->
  statement task1 ctx
  = inr (CreateTable true "dag_runs" [("dt", DATE); ("dag_id", VARCHAR)]
                     ["dt"; "dag_id"])
  /\ execute task1 ctx db = inr db
  /\ run [task1; task1] ctx db = inr db
  /\ forall db0, exists db1,
       execute task1 ctx db0 = inr db1 /\ execute task1 ctx db1 = inr db1.
Proof.
  intros Hdb.
  assert (Hkeep : forall (d : gmap string table) t',
             d !! "dag_runs" = Some t' -> execute task1 ctx d = inr d).
  { intros d t' Hd. unfold execute. rewrite statement_create.
    unfold exec. rewrite Hd. reflexivity. }
  split; [apply statement_create |].
  split; [exact (Hkeep db t Hdb) |].
  split; [unfold run; rewrite !(Hkeep db t Hdb); reflexivity |].
  intros db0. destruct (db0 !! "dag_runs") as [t0 |] eqn:E0.
  - exists db0. split; exact (Hkeep db0 t0 E0).
  - exists (<["dag_runs" := dag_runs []]> db0). split.
    + unfold execute. rewrite statement_create. unfold exec. rewrite E0.
      reflexivity.
    + apply (Hkeep _ (dag_runs [])). apply lookup_insert_eq.
Qed.

Lemma create_table_keeps_existing_witness :
  statement task1 example_context
  = inr (CreateTable true "dag_runs" [("dt", DATE); ("dag_id", VARCHAR)]
                     ["dt"; "dag_id"])
  /\ execute task1 example_context example_db = inr example_db
  /\ run [task1; task1] example_context example_db = inr example_db
  /\ forall db0, exists db1,
       execute task1 example_context db0 = inr db1
       /\ execute task1 example_context db1 = inr db1.
Proof.
  apply (create_table_keeps_existing example_context example_db
           (dag_runs example_rows)).
  vm_compute. reflexivity.
Defined.

(** C10: for every state of the table [dag_runs], every run date and every
    DAG identifier, the delete step followed by the insert step succeeds
    and leaves [dag_runs] with exactly one row whose key is the run's
    (date, identifier) pair; rows with other keys are kept, a unique key
    stays unique, and running the two steps again for the same run succeeds
    and gives the same database. *)
Theorem delete_then_insert_one_row
    (ctx : context) (db : gmap string table) (rs : list (list value)) :
  valid_date (logical_date ctx) = true ->
  valid_key (dag_id (dag ctx)) = true ->
  db !! "dag_runs" = Some (dag_runs rs) ->
  exists rs',
    run [task3; task2] ctx db = inr (<["dag_runs" := dag_runs rs']> db)
    /\ count_key (dag_runs rs') (run_key ctx) = 1%nat
    /\ (forall r, key_of (dag_runs rs) r <> run_key ctx ->
                  In r rs' <-> In r rs)
    /\ (key_unique (dag_runs rs) -> key_unique (dag_runs rs'))
    /\ run [task3; task2] ctx (<["dag_runs" := dag_runs rs']> db)
       = inr (<["dag_runs" := dag_runs rs']> db).
Proof.
  intros Hdate Hid Hdb. exists (after_run ctx rs).
  split; [apply (run_delete_insert ctx Hdate Hid db rs Hdb) |].
  split; [apply after_run_count |].
  split; [apply after_run_others |].
  split; [apply after_run_key_unique |].
  rewrite (run_delete_insert ctx Hdate Hid _ (after_run ctx rs))
    by apply lookup_insert_eq.
  rewrite insert_insert_eq, after_run_idempotent. reflexivity.
Qed.

Lemma delete_then_insert_one_row_witness :
  exists rs',
    run [task3; task2] example_context example_db
    = inr (<["dag_runs" := dag_runs rs']> example_db)
    /\ count_key (dag_runs rs') (run_key example_context) = 1%nat
    /\ (forall r, key_of (dag_runs example_rows) r <> run_key example_context ->
                  In r rs' <-> In r example_rows)
    /\ (key_unique (dag_runs example_rows) -> key_unique (dag_runs rs'))
    /\ run [task3; task2] example_context (<["dag_runs" := dag_runs rs']> example_db)
       = inr (<["dag_runs" := dag_runs rs']> example_db).
Proof.
  apply (delete_then_insert_one_row example_context example_db example_rows);
    vm_compute; reflexivity.
Defined.

End SqlSteps.

(** * Evaluations on concrete inputs *)

Section Evaluations.

Import dag_with_postgres_operator.
Import Text Calendar Template Sql.

(** Texts the schedule reader refuses. *)
Example schedules_refused :
  map Cron.schedule_ok
      [""; "@dayly"; "0 3 * * Tuesday"; "60 3 * * *"; "0 3 * *";
       "0 3 * * 8"; "0 3 * * ,"; "0 3 * * */0"]
  = [false; false; false; false; false; false; false; false].
Proof. vm_compute. reflexivity. Qed.

(** Identifiers the engine refuses and accepts. *)
Example keys_checked :
  map valid_key [""; "a'b"; "a b"; "dag_with_postgres_operator_v03"; "a.b-c_1"]
  = [false; false; false; true; true].
Proof. vm_compute. reflexivity. Qed.

(** Creating the same task twice in one DAG raises. *)
Example duplicate_task_raises :
  (t1 ← add_task task1; add_task task1)
    {| dag_id := "d"; Airflow.default_args := ∅; description := None;
       start_date := None; schedule := None; catchup := false;
       tasks := []; edges := [] |}
  = inl (DuplicateTaskIdFound "create_postgres_table").
Proof. vm_compute. reflexivity. Qed.

(** The plan of the catchup/backfill DAG on 2025-12-24: the four days
    since its start date under the default timetable, the three days
    that are over under the data-interval one; on the start date itself
    the default timetable plans the run of that day. *)
Example catchup_plans :
  (dag_with_catchup_and_backfill.dag
     ≫= fun d => Scheduler.runs_due Scheduler.Trigger d (ymd2ord 2025 12 24))
  = Some [ymd2ord 2025 12 21; ymd2ord 2025 12 22; ymd2ord 2025 12 23;
          ymd2ord 2025 12 24]
  /\ (dag_with_catchup_and_backfill.dag
        ≫= fun d => Scheduler.runs_due Scheduler.DataInterval d
                      (ymd2ord 2025 12 24))
     = Some [ymd2ord 2025 12 21; ymd2ord 2025 12 22; ymd2ord 2025 12 23]
  /\ (dag_with_catchup_and_backfill.dag
        ≫= fun d => Scheduler.runs_due Scheduler.Trigger d
                      (ymd2ord 2025 12 21))
     = Some [ymd2ord 2025 12 21]
  /\ (dag_with_catchup_and_backfill.dag
        ≫= fun d => Scheduler.runs_due Scheduler.Trigger d
                      (ymd2ord 2025 12 20))
     = Some [].
Proof. repeat split; vm_compute; reflexivity. Qed.

(** Without catchup only the latest run is planned: for the third DAG on
    2026-01-01 that of the day itself under the default timetable, that of
    the day before under the data-interval one. *)
Example no_catchup_plans :
  (dag_with_postgres_operator.dag
     ≫= fun d => Scheduler.runs_due Scheduler.Trigger d (ymd2ord 2026 1 1))
  = Some [ymd2ord 2026 1 1]
  /\ (dag_with_postgres_operator.dag
        ≫= fun d => Scheduler.runs_due Scheduler.DataInterval d
                      (ymd2ord 2026 1 1))
     = Some [ymd2ord 2025 12 31]
  /\ (dag_with_postgres_operator.dag
        ≫= fun d => Scheduler.runs_due Scheduler.Trigger d
                      (ymd2ord 2025 12 16))
     = Some [ymd2ord 2025 12 16].
Proof. repeat split; vm_compute; reflexivity. Qed.

(** The first run of the third DAG on an empty database, in the order of
    its edges: the table is created and holds the row of the run. *)
Example first_run :
  run [task1; task3; task2] example_context ∅
  = inr (<["dag_runs" := dag_runs [run_key example_context]]> ∅).
Proof. vm_compute. reflexivity. Qed.

(** The insert step alone fails when the row of the run is there. *)
Example insert_alone_violates_key :
  execute task2 example_context example_db = inl UniqueViolation.
Proof. vm_compute. reflexivity. Qed.

(** The delete step fails when the table is missing. *)
Example delete_needs_table :
  execute task3 example_context ∅ = inl (UndefinedTable "dag_runs").
Proof. vm_compute. reflexivity. Qed.

(** An identifier with a quote, which the engine refuses, would not give
    a statement. *)
Example quote_breaks_statement :
  statement task3
    {| logical_date := datetime 2025 12 16;
       Template.dag := {| dag_id := "a'b"; Airflow.default_args := ∅;
                          description := None; start_date := None;
                          schedule := None; catchup := false;
                          tasks := []; edges := [] |} |}
  = inl SyntaxError.
Proof. vm_compute. reflexivity. Qed.

End Evaluations.

(** * Further properties of the DAG files *)

Section DefaultArguments.

(** X1: in each of the three files [default_args] has exactly the keys
    owner, retries and retry_delay, any other key is missing; the owner
    is afrith everywhere; the retry delay is a positive number of whole
    seconds below one day, 120 in the catchup/backfill file and 300 in the
    other two. *)
Theorem default_args_contents :
  Forall (fun od => exists args td,
            default_args <$> od = Some args
            /\ dom args = {["owner"]} ∪ {["retries"]} ∪ {["retry_delay"]}
            /\ (forall k, k <> "owner" -> k <> "retries" -> k <> "retry_delay"
                          -> args !! k = None)
            /\ args !! "owner" = Some (PyStr "afrith")
            /\ args !! "retry_delay" = Some (PyTimedelta td)
            /\ td_days td = 0 /\ 0 < td_seconds td < 86400
            /\ td_microseconds td = 0)
         all_dags
  /\ map (fmap (fun d => default_args d !! "retry_delay")) all_dags
     = [Some (Some (PyTimedelta (mk_timedelta 0 120 0)));
        Some (Some (PyTimedelta (mk_timedelta 0 300 0)));
        Some (Some (PyTimedelta (mk_timedelta 0 300 0)))].
Proof.
  split; [| vm_compute; reflexivity].
  assert (H1 : default_args <$> dag_with_catchup_and_backfill.dag
               = Some dag_with_catchup_and_backfill.default_args)
    by (vm_compute; reflexivity).
  assert (H2 : default_args <$> dag_with_cron_expression.dag
               = Some dag_with_cron_expression.default_args)
    by (vm_compute; reflexivity).
  assert (H3 : default_args <$> dag_with_postgres_operator.dag
               = Some dag_with_postgres_operator.default_args)
    by (vm_compute; reflexivity).
  unfold all_dags.
  repeat constructor;
    (eexists; eexists; split; [eassumption |]);
    (split;
     [ unfold dag_with_catchup_and_backfill.default_args,
         dag_with_cron_expression.default_args,
         dag_with_postgres_operator.default_args;
       rewrite !dom_insert_L, dom_empty_L; set_solver |]);
    (split;
     [ intros k Ho Hr Hd;
       unfold dag_with_catchup_and_backfill.default_args,
         dag_with_cron_expression.default_args,
         dag_with_postgres_operator.default_args;
       rewrite !lookup_insert_ne by congruence; apply lookup_empty |]);
    (split; [vm_compute; reflexivity |]);
    (split; [vm_compute; reflexivity |]);
    vm_compute; intuition congruence.
Qed.

End DefaultArguments.

Section Orders.

Import Graph Plan.

Lemma NoDup_by_decision {A : Type} `{EqDecision A} (l : list A) :
  bool_decide (NoDup l) = true -> NoDup l.
Proof. apply bool_decide_eq_true_1. Qed.

(** X2: each of the three DAGs is well formed: its task identifiers are
    valid keys and pairwise different, each edge joins two different
    tasks of the DAG, no edge is declared twice and no task is reached
    from itself; every SQL step uses the connection postgres_localhost. *)
Theorem dags_well_formed :
  Forall (built (fun d =>
            well_formed d
            /\ Forall (fun op => forall c, conn_id op = Some c
                                           -> c = "postgres_localhost")
                      (tasks d)))
         all_dags.
Proof.
  unfold all_dags.
  repeat constructor;
    (eapply built_intro; [vm_compute; reflexivity |]);
    (split;
     [ (split; [apply NoDup_by_decision; vm_compute; reflexivity |]);
       (split; [repeat constructor |]);
       (split; [repeat constructor; simpl; try tauto; discriminate |]);
       (split; [apply NoDup_by_decision; vm_compute; reflexivity
               | vm_compute; reflexivity])
     | repeat constructor; simpl; intros c Hc; congruence ]).
Qed.

Lemma in_three (x a b c : string) :
  In x [a; b; c] -> x = a \/ x = b \/ x = c.
Proof. simpl. intuition. Qed.

(** X3: the edges of the third DAG leave the engine a single order in
    which to run its tasks: create_postgres_table, delete_data_from_table,
    insert_into_table; this is not the order in which the file creates
    them. *)
Theorem postgres_dag_single_order (d : DAG) (l : list string) :
  dag_with_postgres_operator.dag = Some d ->
  admissible d l ->
  l = ["create_postgres_table"; "delete_data_from_table"; "insert_into_table"]
  /\ l <> task_ids d.
Proof.
  intros Hd [Hp He]. vm_compute in Hd. injection Hd as <-.
  change (Permutation l ["create_postgres_table"; "insert_into_table";
                         "delete_data_from_table"]) in Hp.
  assert (Hlen := Permutation_length Hp).
  assert (Hnd : NoDup l).
  { rewrite Hp. apply NoDup_by_decision. vm_compute. reflexivity. }
  destruct l as [| x [| y [| z [| w l]]]]; try discriminate Hlen.
  assert (Hx := in_three _ _ _ _ (Permutation_in x Hp (or_introl eq_refl))).
  assert (Hy := in_three _ _ _ _
                  (Permutation_in y Hp (or_intror (or_introl eq_refl)))).
  assert (Hz := in_three _ _ _ _
                  (Permutation_in z Hp
                     (or_intror (or_intror (or_introl eq_refl))))).
  apply (bool_decide_eq_true_2 _) in Hnd.
  destruct Hx as [-> | [-> | ->]], Hy as [-> | [-> | ->]],
           Hz as [-> | [-> | ->]];
    try (vm_compute in Hnd; discriminate Hnd);
    try (vm_compute in He; discriminate He).
  split; [reflexivity | discriminate].
Qed.

Lemma postgres_dag_single_order_witness :
  ["create_postgres_table"; "delete_data_from_table"; "insert_into_table"]
  = ["create_postgres_table"; "delete_data_from_table"; "insert_into_table"]
  /\ ["create_postgres_table"; "delete_data_from_table"; "insert_into_table"]
     <> task_ids (Template.dag example_context).
Proof.
  apply (postgres_dag_single_order (Template.dag example_context)).
  - vm_compute. reflexivity.
  - split.
    + change (task_ids (Template.dag example_context))
        with ["create_postgres_table"; "insert_into_table";
              "delete_data_from_table"].
      apply perm_skip. apply perm_swap.
    + vm_compute. reflexivity.
Defined.

End Orders.

(** * Further properties of the SQL steps *)

Section StepsAlone.

Import dag_with_postgres_operator.
Import Text Calendar Template Sql.

Lemma same_key_eq (k k' : list value) : same_key k k' = true <-> k = k'.
Proof.
  unfold same_key. revert k'.
  induction k as [| a k IH]; intros [| b k']; simpl;
    try (split; [discriminate | discriminate]).
  - split; reflexivity.
  - split.
    + intros H. apply andb_prop in H. destruct H as [Hlen H].
      apply andb_prop in H. destruct H as [Hab Hrest].
      apply value_eqb_eq in Hab. subst b. f_equal.
      apply IH. apply andb_true_intro. split; assumption.
    + intros H. injection H as -> ->.
      destruct (IH k') as [_ Hk]. specialize (Hk eq_refl).
      apply andb_prop in Hk. destruct Hk as [H1 H2].
      rewrite H1, H2, andb_true_r. simpl.
      apply value_eqb_eq. reflexivity.
Qed.

Variable ctx : context.

Lemma execute_create_existing (db : gmap string table) (t : table) :
  db !! "dag_runs" = Some t -> execute task1 ctx db = inr db.
Proof.
  intros Hdb. unfold execute. rewrite statement_create.
  unfold exec. rewrite Hdb. reflexivity.
Qed.

Lemma execute_create_missing (db : gmap string table) :
  db !! "dag_runs" = None ->
  execute task1 ctx db = inr (<["dag_runs" := dag_runs []]> db).
Proof.
  intros Hdb. unfold execute. rewrite statement_create.
  unfold exec. rewrite Hdb. reflexivity.
Qed.

Hypothesis date_ok : valid_date (logical_date ctx) = true.
Hypothesis id_ok : valid_key (dag_id (dag ctx)) = true.

(** X7: the insert step on its own fails with a unique violation when a
    row with the key of the run is in [dag_runs], and otherwise appends
    the row of the run and nothing else. *)
Theorem insert_step_alone (db : gmap string table) (rs : list (list value)) :
  db !! "dag_runs" = Some (dag_runs rs) ->
  ((exists r, In r rs /\ key_of (dag_runs rs) r = run_key ctx)
   -> execute task2 ctx db = inl UniqueViolation)
  /\ ((forall r, In r rs -> key_of (dag_runs rs) r <> run_key ctx)
      -> execute task2 ctx db
         = inr (<["dag_runs" := dag_runs (rs ++ [run_key ctx])]> db)).
Proof.
  intros Hdb. rewrite (execute_insert ctx date_ok id_ok db rs Hdb). split.
  - intros [r [Hin Hk]].
    assert (He : existsb (fun r => same_key (key_of (dag_runs rs) r) (run_key ctx))
                   rs = true).
    { apply existsb_exists. exists r. split; [exact Hin |].
      apply same_key_eq, Hk. }
    rewrite He. reflexivity.
  - intros Hnone.
    destruct (existsb _ rs) eqn:He; [| reflexivity].
    apply existsb_exists in He. destruct He as [r [Hin Hk]].
    apply same_key_eq in Hk. destruct (Hnone r Hin Hk).
Qed.

(** X8: without the table [dag_runs] the delete step and the insert step
    fail with an undefined-table error, while the create-table step
    succeeds and leaves an empty [dag_runs] with the two key columns. *)
Theorem steps_need_table (db : gmap string table) :
  db !! "dag_runs" = None ->
  execute task3 ctx db = inl (UndefinedTable "dag_runs")
  /\ execute task2 ctx db = inl (UndefinedTable "dag_runs")
  /\ exists db', execute task1 ctx db = inr db'
                 /\ db' !! "dag_runs" = Some (dag_runs []).
Proof.
  intros Hdb. unfold execute.
  rewrite (statement_delete ctx date_ok id_ok),
          (statement_insert ctx date_ok id_ok).
  unfold exec at 1 2. rewrite Hdb.
  split; [reflexivity |]. split; [reflexivity |].
  exists (<["dag_runs" := dag_runs []]> db).
  split; [apply (execute_create_missing db Hdb) | apply lookup_insert_eq].
Qed.

(** X9: the delete step on its own succeeds on every content of
    [dag_runs]: it leaves no row with the key of the run, adds no row,
    keeps the rows with other keys, and a second execution changes
    nothing. *)
Theorem delete_step_alone (db : gmap string table) (rs : list (list value)) :
  db !! "dag_runs" = Some (dag_runs rs) ->
  exists rs',
    execute task3 ctx db = inr (<["dag_runs" := dag_runs rs']> db)
    /\ count_key (dag_runs rs') (run_key ctx) = 0%nat
    /\ (forall r, In r rs' -> In r rs)
    /\ (forall r, In r rs -> key_of (dag_runs rs) r <> run_key ctx -> In r rs')
    /\ execute task3 ctx (<["dag_runs" := dag_runs rs']> db)
       = inr (<["dag_runs" := dag_runs rs']> db).
Proof.
  intros Hdb.
  set (keep := fun r => negb (same_key (key_of (dag_runs []) r) (run_key ctx))).
  assert (Hfilter : forall l,
             List.filter (fun r => negb (satisfies (dag_runs l)
                                                   (run_conditions ctx) r)) rs
             = List.filter keep rs).
  { intros l. apply List.filter_ext. intros r.
    rewrite satisfies_run_conditions. reflexivity. }
  exists (List.filter keep rs).
  split; [rewrite (execute_delete ctx date_ok id_ok db rs Hdb), Hfilter;
          reflexivity |].
  split.
  { unfold count_key. cbn [rows dag_runs].
    change (key_of (dag_runs (List.filter keep rs))) with (key_of (dag_runs [])).
    unfold keep.
    rewrite (filter_filter_negb
               (fun r => same_key (key_of (dag_runs []) r) (run_key ctx))).
    reflexivity. }
  split; [intros r Hin; apply List.filter_In in Hin; tauto |].
  split.
  { intros r Hin Hne. apply List.filter_In. split; [exact Hin |].
    unfold keep. apply negb_true_iff.
    destruct (same_key _ _) eqn:E; [| reflexivity].
    apply same_key_eq in E. destruct (Hne E). }
  rewrite (execute_delete ctx date_ok id_ok _ (List.filter keep rs))
    by apply lookup_insert_eq.
  rewrite insert_insert_eq. do 2 f_equal. f_equal.
  rewrite (List.filter_ext _ keep)
    by (intros r; rewrite satisfies_run_conditions; reflexivity).
  apply filter_idempotent.
Qed.

End StepsAlone.

Section Runs.

Import dag_with_postgres_operator.
Import Text Calendar Template Sql.

(** A run leaves the number of rows with any other key as it was. *)
Lemma after_run_count_other (ctx : context) (rs : list (list value))
                            (k : list value) :
  k <> run_key ctx ->
  count_key (dag_runs (after_run ctx rs)) k = count_key (dag_runs rs) k.
Proof.
  intros Hne. unfold count_key. cbn [rows dag_runs].
  change (key_of (dag_runs (after_run ctx rs))) with (key_of (dag_runs [])).
  change (key_of (dag_runs rs)) with (key_of (dag_runs [])).
  rewrite after_run_by_key, List.filter_app, length_app.
  cbn [List.filter].
  change (key_of (dag_runs []) (run_key ctx)) with (run_key ctx).
  destruct (same_key (run_key ctx) k) eqn:E.
  { apply same_key_eq in E. destruct (Hne (eq_sym E)). }
  cbn [length]. rewrite Nat.add_0_r. f_equal.
  induction rs as [| r rs IH]; [reflexivity |].
  cbn [List.filter].
  destruct (same_key (key_of (dag_runs []) r) (run_key ctx)) eqn:Er;
    cbn [negb List.filter].
  - destruct (same_key (key_of (dag_runs []) r) k) eqn:Ek; [| exact IH].
    apply same_key_eq in Er, Ek. destruct Hne. congruence.
  - rewrite IH. reflexivity.
Qed.

Variable ctx : context.
Hypothesis date_ok : valid_date (logical_date ctx) = true.
Hypothesis id_ok : valid_key (dag_id (dag ctx)) = true.

(** X10: in the order in which the file creates the steps, insert before
    delete, a run would either fail with a unique violation or leave no
    row with its key in [dag_runs]: the row persists only because the
    edges put the delete step first. *)
Theorem insert_then_delete_leaves_no_row
    (db : gmap string table) (rs : list (list value)) :
  db !! "dag_runs" = Some (dag_runs rs) ->
  run [task2; task3] ctx db = inl UniqueViolation
  \/ exists rs',
       run [task2; task3] ctx db = inr (<["dag_runs" := dag_runs rs']> db)
       /\ count_key (dag_runs rs') (run_key ctx) = 0%nat.
Proof.
  intros Hdb. unfold run.
  rewrite (execute_insert ctx date_ok id_ok db rs Hdb).
  destruct (existsb _ rs); [left; reflexivity | right].
  rewrite (execute_delete ctx date_ok id_ok _ (rs ++ [run_key ctx]))
    by apply lookup_insert_eq.
  rewrite insert_insert_eq. eexists. split; [reflexivity |].
  unfold count_key. cbn [rows dag_runs].
  rewrite (List.filter_ext
             (fun r => negb (satisfies (dag_runs (rs ++ [run_key ctx]))
                                       (run_conditions ctx) r))
             (fun r => negb (same_key (key_of (dag_runs []) r) (run_key ctx))))
    by (intros r; rewrite satisfies_run_conditions; reflexivity).
  match goal with
  | |- length (List.filter ?p _) = _ =>
      change p with (fun r => same_key (key_of (dag_runs []) r) (run_key ctx))
  end.
  rewrite filter_filter_negb. reflexivity.
Qed.

(** X11: a whole run of the third DAG in the order of its edges, create,
    delete, insert, succeeds on a database without [dag_runs] and on one
    where [dag_runs] is as the create step makes it; afterwards exactly one
    row has the key of the run, and a second whole run gives the same
    database. *)
Theorem whole_run_succeeds (db : gmap string table) :
  (db !! "dag_runs" = None
   \/ exists rs, db !! "dag_runs" = Some (dag_runs rs)) ->
  exists rs',
    run [task1; task3; task2] ctx db = inr (<["dag_runs" := dag_runs rs']> db)
    /\ count_key (dag_runs rs') (run_key ctx) = 1%nat
    /\ run [task1; task3; task2] ctx (<["dag_runs" := dag_runs rs']> db)
       = inr (<["dag_runs" := dag_runs rs']> db).
Proof.
  assert (Hrun : forall d l,
             d !! "dag_runs" = Some (dag_runs l) ->
             run [task1; task3; task2] ctx d
             = inr (<["dag_runs" := dag_runs (after_run ctx l)]> d)).
  { intros d l Hd. cbn [run].
    rewrite (execute_create_existing ctx d _ Hd).
    apply (run_delete_insert ctx date_ok id_ok d l Hd). }
  assert (Hagain : forall l,
             run [task1; task3; task2] ctx
                 (<["dag_runs" := dag_runs (after_run ctx l)]> db)
             = inr (<["dag_runs" := dag_runs (after_run ctx l)]> db)).
  { intros l. rewrite (Hrun _ (after_run ctx l)) by apply lookup_insert_eq.
    rewrite insert_insert_eq, after_run_idempotent. reflexivity. }
  intros [Hnone | [rs Hsome]].
  - exists (after_run ctx []).
    split; [| split; [apply after_run_count | apply Hagain]].
    cbn [run]. rewrite (execute_create_missing ctx db Hnone).
    pose proof (run_delete_insert ctx date_ok id_ok
                  (<["dag_runs" := dag_runs []]> db) []
                  (lookup_insert_eq db "dag_runs" _)) as Hdi.
    cbn [run] in Hdi. rewrite Hdi, insert_insert_eq. reflexivity.
  - exists (after_run ctx rs).
    split; [apply (Hrun db rs Hsome) |].
    split; [apply after_run_count | apply Hagain].
Qed.

(** X12: runs with different keys do not disturb each other: after the
    delete and insert steps of one run and then those of another run
    with a different key, [dag_runs] holds exactly one row for each of
    the two keys, and as many rows as before for every third key. *)
Theorem two_runs_one_row_each
    (ctx' : context) (db : gmap string table) (rs : list (list value)) :
  valid_date (logical_date ctx') = true ->
  valid_key (dag_id (dag ctx')) = true ->
  run_key ctx <> run_key ctx' ->
  db !! "dag_runs" = Some (dag_runs rs) ->
  exists db1 rs',
    run [task3; task2] ctx db = inr db1
    /\ run [task3; task2] ctx' db1 = inr (<["dag_runs" := dag_runs rs']> db)
    /\ count_key (dag_runs rs') (run_key ctx) = 1%nat
    /\ count_key (dag_runs rs') (run_key ctx') = 1%nat
    /\ forall k, k <> run_key ctx -> k <> run_key ctx' ->
                 count_key (dag_runs rs') k = count_key (dag_runs rs) k.
Proof.
  intros Hdate' Hid' Hne Hdb.
  exists (<["dag_runs" := dag_runs (after_run ctx rs)]> db),
         (after_run ctx' (after_run ctx rs)).
  split; [apply (run_delete_insert ctx date_ok id_ok db rs Hdb) |].
  split.
  { rewrite (run_delete_insert ctx' Hdate' Hid' _ (after_run ctx rs))
      by apply lookup_insert_eq.
    rewrite insert_insert_eq. reflexivity. }
  split.
  { rewrite (after_run_count_other ctx' _ _ Hne). apply after_run_count. }
  split; [apply after_run_count |].
  intros k Hk Hk'.
  rewrite (after_run_count_other ctx' _ _ Hk').
  apply (after_run_count_other ctx _ _ Hk).
Qed.

End Runs.

(** * The further properties on the example run *)

Section Instances.

Import dag_with_postgres_operator.
Import Text Calendar Template Sql.

Lemma insert_step_alone_witness :
  ((exists r, In r example_rows
              /\ key_of (dag_runs example_rows) r = run_key example_context)
   -> execute task2 example_context example_db = inl UniqueViolation)
  /\ ((forall r, In r example_rows
                 -> key_of (dag_runs example_rows) r <> run_key example_context)
      -> execute task2 example_context example_db
         = inr (<["dag_runs" :=
                    dag_runs (example_rows ++ [run_key example_context])]>
                  example_db)).
Proof.
  apply (insert_step_alone example_context eq_refl eq_refl example_db
           example_rows).
  vm_compute. reflexivity.
Defined.

Lemma steps_need_table_witness :
  execute task3 example_context ∅ = inl (UndefinedTable "dag_runs")
  /\ execute task2 example_context ∅ = inl (UndefinedTable "dag_runs")
  /\ exists db', execute task1 example_context ∅ = inr db'
                 /\ db' !! "dag_runs" = Some (dag_runs []).
Proof.
  apply (steps_need_table example_context eq_refl eq_refl ∅).
  vm_compute. reflexivity.
Defined.

Lemma delete_step_alone_witness :
  exists rs',
    execute task3 example_context example_db
    = inr (<["dag_runs" := dag_runs rs']> example_db)
    /\ count_key (dag_runs rs') (run_key example_context) = 0%nat
    /\ (forall r, In r rs' -> In r example_rows)
    /\ (forall r, In r example_rows
                  -> key_of (dag_runs example_rows) r <> run_key example_context
                  -> In r rs')
    /\ execute task3 example_context (<["dag_runs" := dag_runs rs']> example_db)
       = inr (<["dag_runs" := dag_runs rs']> example_db).
Proof.
  apply (delete_step_alone example_context eq_refl eq_refl example_db
           example_rows).
  vm_compute. reflexivity.
Defined.

Lemma insert_then_delete_leaves_no_row_witness :
  run [task2; task3] example_context example_db = inl UniqueViolation
  \/ exists rs',
       run [task2; task3] example_context example_db
       = inr (<["dag_runs" := dag_runs rs']> example_db)
       /\ count_key (dag_runs rs') (run_key example_context) = 0%nat.
Proof.
  apply (insert_then_delete_leaves_no_row example_context eq_refl eq_refl
           example_db example_rows).
  vm_compute. reflexivity.
Defined.

Lemma whole_run_succeeds_witness :
  exists rs',
    run [task1; task3; task2] example_context ∅
    = inr (<["dag_runs" := dag_runs rs']> ∅)
    /\ count_key (dag_runs rs') (run_key example_context) = 1%nat
    /\ run [task1; task3; task2] example_context (<["dag_runs" := dag_runs rs']> ∅)
       = inr (<["dag_runs" := dag_runs rs']> ∅).
Proof.
  apply (whole_run_succeeds example_context eq_refl eq_refl ∅).
  left. vm_compute. reflexivity.
Defined.

Lemma two_runs_one_row_each_witness :
  exists db1 rs',
    run [task3; task2] example_context example_db = inr db1
    /\ run [task3; task2] next_context db1
       = inr (<["dag_runs" := dag_runs rs']> example_db)
    /\ count_key (dag_runs rs') (run_key example_context) = 1%nat
    /\ count_key (dag_runs rs') (run_key next_context) = 1%nat
    /\ forall k, k <> run_key example_context -> k <> run_key next_context ->
                 count_key (dag_runs rs') k
                 = count_key (dag_runs example_rows) k.
Proof.
  apply (two_runs_one_row_each example_context eq_refl eq_refl next_context
           example_db example_rows).
  - vm_compute. reflexivity.
  - vm_compute. reflexivity.
  - intros H. vm_compute in H. discriminate H.
  - vm_compute. reflexivity.
Defined.

End Instances.

Section Agreement.

Import dag_with_postgres_operator.
Import Text Calendar Template Sql.

(** X13: the three SQL texts agree: in every run they are one statement
    each on the same table [dag_runs]; the insert step names every column
    the create step declares, in the same order, with the run's date and
    the DAG's identifier as values; and the delete step compares exactly
    the columns of the primary key with those same two values. *)
Theorem statements_agree (ctx : context) :
  valid_date (logical_date ctx) = true ->
  valid_key (dag_id (dag ctx)) = true ->
  exists cols pk ics vals conds,
    statement task1 ctx = inr (CreateTable true "dag_runs" cols pk)
    /\ statement task2 ctx = inr (InsertInto "dag_runs" ics vals)
    /\ statement task3 ctx = inr (DeleteFrom "dag_runs" conds)
    /\ ics = map fst cols
    /\ pk = map fst cols
    /\ map fst conds = pk
    /\ map snd conds = vals
    /\ vals = [isoformat (logical_date ctx); chars (dag_id (dag ctx))].
Proof.
  intros Hdate Hid. do 5 eexists.
  split; [apply statement_create |].
  split; [apply (statement_insert ctx Hdate Hid) |].
  split; [apply (statement_delete ctx Hdate Hid) |].
  repeat split; reflexivity.
Qed.

Lemma statements_agree_witness :
  exists cols pk ics vals conds,
    statement task1 example_context = inr (CreateTable true "dag_runs" cols pk)
    /\ statement task2 example_context = inr (InsertInto "dag_runs" ics vals)
    /\ statement task3 example_context = inr (DeleteFrom "dag_runs" conds)
    /\ ics = map fst cols
    /\ pk = map fst cols
    /\ map fst conds = pk
    /\ map snd conds = vals
    /\ vals = [isoformat (logical_date example_context);
               chars (dag_id (dag example_context))].
Proof.
  apply (statements_agree example_context); vm_compute; reflexivity.
Defined.

End Agreement.
